(** * yara_scanner.py: a shallow embedding and its checked properties

    The scanner is a linear pipeline: load rules, enumerate targets, match
    each target with the external YARA engine, aggregate, report.  The
    engine, [pathlib], the file system and [json] are libraries the script
    calls; they appear here as one interface, [World], that every function
    of the script is parameterised by.  Python exceptions and printed lines
    are explicit: a computation yields either a value or a raised
    exception, together with the lines it has printed. *)

From Stdlib Require Import Ascii.
From stdpp Require Import gmap strings list fin_maps pretty.

Local Open Scope Z_scope.

(** ** Python exceptions *)

Inductive exn : Type :=
| TimeoutError                      (* yara.TimeoutError *)
| YaraError (msg : string)          (* yara.Error, not one of its subclasses *)
| SyntaxError (msg : string)        (* yara.SyntaxError *)
| AttributeError (msg : string)
| ValueError (msg : string)
| OSError (msg : string)
| OtherException (msg : string)     (* any other subclass of Exception *)
| KeyboardInterrupt                 (* BaseException, not an Exception *)
| SystemExit (code : Z).            (* BaseException, not an Exception *)

(** [isinstance(e, yara.TimeoutError)] *)
Definition is_TimeoutError (e : exn) : bool :=
  match e with TimeoutError => true | _ => false end.

(** [isinstance(e, yara.SyntaxError)] *)
Definition is_SyntaxError (e : exn) : bool :=
  match e with SyntaxError _ => true | _ => false end.

(** [isinstance(e, yara.Error)]: the engine's timeout and syntax errors
    are subclasses of [yara.Error]. *)
Definition is_yara_Error (e : exn) : bool :=
  match e with
  | TimeoutError | YaraError _ | SyntaxError _ => true
  | _ => false
  end.

(** [isinstance(e, Exception)] *)
Definition is_Exception (e : exn) : bool :=
  match e with
  | KeyboardInterrupt | SystemExit _ => false
  | _ => true
  end.

(** [str(e)], as interpolated by [f"{e}"]. *)
Definition exn_str (e : exn) : string :=
  match e with
  | TimeoutError => "internal error: 26"
  | YaraError m | SyntaxError m | AttributeError m | ValueError m
  | OSError m | OtherException m => m
  | KeyboardInterrupt => ""
  | SystemExit c => pretty c
  end.

(** ** Output and the computation type *)

Inductive event : Type :=
| Stderr (line : string)                 (* print(..., file=sys.stderr) *)
| Stdout (line : string)                 (* print(...) *)
| FileWrite (path content : string).     (* f.write(...) on open(path, 'w') *)

Global Instance event_eq_dec : EqDecision event.
Proof. solve_decision. Defined.

Definition Py (A : Type) : Type := (exn + A) * list event.

Definition py_bind {A B} (f : A → Py B) (m : Py A) : Py B :=
  match m with
  | (inl e, t) => (inl e, t)
  | (inr a, t) => let '(r, t') := f a in (r, t ++ t')
  end.

Global Instance Py_ret : MRet Py := λ A a, (inr a, []).
Global Instance Py_bind : MBind Py := @py_bind.

Definition raise {A} (e : exn) : Py A := (inl e, []).
Definition print_err (line : string) : Py unit := (inr (), [Stderr line]).
Definition print_out (line : string) : Py unit := (inr (), [Stdout line]).

(** A library call that either returns or raises, and prints nothing. *)
Definition call {A} (r : exn + A) : Py A := (r, []).

(** [try: body  except ...: handler].  [handler e] is [None] when no
    [except] clause matches [e], which then propagates. *)
Definition try_except {A} (body : Py A) (handler : exn → option (Py A)) : Py A :=
  match body with
  | (inl e, t) =>
      match handler e with
      | Some h => let '(r, t') := h in (r, t ++ t')
      | None => (inl e, t)
      end
  | ok => ok
  end.

(** [for x in xs: acc = body(acc, x)] *)
Fixpoint for_each {A S} (body : S → A → Py S) (xs : list A) (s : S) : Py S :=
  match xs with
  | [] => mret s
  | x :: xs' => s' ← body s x; for_each body xs' s'
  end.

Definition value {A} (m : Py A) : exn + A := m.1.
Definition trace {A} (m : Py A) : list event := m.2.

Definition nl : string := String "010"%char "".

(** ** Data model *)

(** A YARA metadata value: a string, an integer or a boolean. *)
Inductive meta_value : Type :=
| MStr (s : string)
| MInt (n : Z)
| MBool (b : bool).

Global Instance meta_value_eq_dec : EqDecision meta_value.
Proof. solve_decision. Defined.

(** The engine's match objects ([yara.Match], [yara.StringMatch],
    [yara.StringMatchInstance]), reduced to the attributes the script
    reads. *)
Record string_match_instance : Type := { offset : Z }.

Record string_match : Type := {
  identifier : string;
  instances : list string_match_instance
}.

Record yara_match : Type := {
  rule : string;
  namespace : string;
  tags : list string;
  meta : gmap string meta_value;
  strings : list string_match
}.

(** The dict appended to a match's ['strings'] list. *)
Record string_entry : Type := {
  se_identifier : string;
  se_offset : Z
}.

(** The [match_data] dict built by [scan_file]. *)
Record match_data : Type := {
  md_rule : string;
  md_namespace : string;
  md_tags : list string;
  md_meta : gmap string meta_value;
  md_strings : list string_entry
}.

(** A per-target result dict.  Both scan functions build it with a dict
    literal; the four optional fields are [None] when the literal has no
    such key. *)
Record result : Type := {
  r_file : string;
  r_package : option string;
  r_version : option string;
  r_sha256 : option string;
  r_type : option string;
  r_matches : list match_data
}.

(** The [yara_results] dict. *)
Record report : Type := {
  totalScanned : Z;
  totalMatches : Z;
  filesWithMatches : Z;
  results : list result
}.

(** The manifest ([binary-scan-results.json]) after [json.load], for
    documents that follow the manifest's schema; a field is [None] when
    the key is absent, which is where [dict.get]'s default applies. *)
Record executable : Type := {
  x_file : option string;
  x_sha256 : option string;
  x_type : option string
}.

Record package : Type := {
  p_package : option string;
  p_version : option string;
  p_files : option (list executable)
}.

Record scan_results : Type := {
  sr_packages : option (list package)
}.

(** ** The libraries the script calls *)

Class World : Type := {
  (* pathlib.Path on the host file system *)
  Path : Type;
  Path_eq_dec :: EqDecision Path;
  mkPath : string → Path;                     (* Path(s) *)
  str : Path → string;                        (* str(p) *)
  joinpath : Path → string → Path;            (* p / s *)
  parent : Path → Path;                       (* p.parent *)
  stem : Path → string;                       (* p.stem *)
  suffix : Path → string;                     (* p.suffix *)
  exists_ : Path → bool;                      (* p.exists() *)
  is_file : Path → bool;                      (* p.is_file() *)
  is_dir : Path → bool;                       (* p.is_dir() *)
  glob : Path → string → list Path;           (* p.glob(pattern) *)
  rglob : Path → string → list Path;          (* p.rglob(pattern) *)
  relative_to : Path → Path → option Path;    (* None: raises ValueError *)
  script_file : string;                       (* __file__ *)
  write_file : string → string → option exn;  (* open(p, 'w'); Some e: raises e *)
  (* yara *)
  Rules : Type;                               (* yara.Rules *)
  yara_compile : list (string * string) → exn + Rules;
  rules_match : Rules → string → Z → exn + list yara_match;
  (* json *)
  json_load : string → exn + scan_results;    (* open(p, 'r') and json.load *)
  json_dumps : report → string                (* json.dumps(r, indent=2) *)
}.

(** ** scan_file *)

(** The ['offset'] of a string entry:
    [string_match.instances[0].offset if string_match.instances else 0]. *)
Definition first_offset (sm : string_match) : Z :=
  match instances sm with
  | i :: _ => offset i
  | [] => 0
  end.

Definition string_entry_of (sm : string_match) : string_entry :=
  {| se_identifier := identifier sm; se_offset := first_offset sm |}.

(** The body of the loop over the engine's results: one [match_data],
    with the strings of [match.strings[:10]]. *)
Definition match_data_of (m : yara_match) : match_data :=
  {| md_rule := rule m;
     md_namespace := namespace m;
     md_tags := tags m;
     md_meta := meta m;
     md_strings := string_entry_of <$> take 10 (strings m) |}.

(** [list(dict.fromkeys(keys))]: a key that is already in the dict keeps
    its position, a new key goes to the end. *)
Definition dict_fromkeys {A} `{EqDecision A} (keys : list A) : list A :=
  foldl (λ d k, if decide (k ∈ d) then d else d ++ [k]) [] keys.

(** Python truthiness of [include_patterns]: [None] and [[]] are false. *)
Definition include_patterns_given (include_patterns : option (list string)) : bool :=
  match include_patterns with
  | Some (_ :: _) => true
  | _ => false
  end.

Section Scanner.
Context `{World}.

(** The three [except] clauses of [scan_file], in the source's order. *)
Definition scan_file_handler (file_path : string) (e : exn)
    : option (Py (list match_data)) :=
  if is_TimeoutError e then
    Some (print_err ("Warning: Scan timeout for " +:+ file_path);; mret [])
  else if is_yara_Error e then
    Some (print_err ("Warning: YARA error scanning " +:+ file_path +:+ ": "
                       +:+ exn_str e);; mret [])
  else if is_Exception e then
    Some (print_err ("Warning: Error scanning " +:+ file_path +:+ ": "
                       +:+ exn_str e);; mret [])
  else None.

(** [matches] is still empty when [rules.match] raises, and the loop
    after it reads attributes the engine's objects have, so the list
    returned after a handled exception is the empty one. *)
Definition scan_file (rules : Rules) (file_path : string) (timeout : Z)
    : Py (list match_data) :=
  try_except
    (results ← call (rules_match rules file_path timeout);
     mret (match_data_of <$> results))
    (scan_file_handler file_path).


(** ** Formatting *)

(** How an f-string interpolates a metadata value ([str(v)]). *)
Definition format_value (v : meta_value) : string :=
  match v with
  | MStr s => s
  | MInt n => pretty n
  | MBool true => "True"
  | MBool false => "False"
  end.

(** Python truthiness of a metadata value. *)
Definition truthy (v : meta_value) : bool :=
  match v with
  | MStr s => negb (String.eqb s "")
  | MInt n => negb (n =? 0)
  | MBool b => b
  end.

(** [match.get('meta', {}).get(key, default)] *)
Definition meta_get (m : match_data) (key : string) (dflt : string) : meta_value :=
  default (MStr dflt) (md_meta m !! key).

(** The lines both scan loops print for the matches of one target. *)
Definition print_matches (label : string) (matches : list match_data) : Py unit :=
  for_each (λ _ m,
      let severity := meta_get m "severity" "unknown" in
      print_err ("  [!] " +:+ label +:+ ": " +:+ md_rule m +:+ " (severity: "
                   +:+ format_value severity +:+ ")"))
    matches ().

Definition print_progress (done total : Z) : Py unit :=
  if decide (done `mod` 10 = 0 ∨ done = total) then
    print_err ("  Progress: " +:+ pretty done +:+ "/" +:+ pretty total)
  else mret ().

(** [yara_results['totalScanned'] += 1] *)
Definition count_scanned (yara_results : report) : report :=
  {| totalScanned := totalScanned yara_results + 1;
     totalMatches := totalMatches yara_results;
     filesWithMatches := filesWithMatches yara_results;
     results := results yara_results |}.

(** What [if matches:] adds to the report for a target with matches. *)
Definition count_matches (yara_results : report) (matches : list match_data)
    (result : result) : report :=
  {| totalScanned := totalScanned yara_results;
     totalMatches := totalMatches yara_results + Z.of_nat (length matches);
     filesWithMatches := filesWithMatches yara_results + 1;
     results := results yara_results ++ [result] |}.

Definition empty_report : report :=
  {| totalScanned := 0; totalMatches := 0; filesWithMatches := 0; results := [] |}.

(** ** scan_files_from_json *)

(** The full path of a manifest entry. *)
Definition manifest_full_path (base_path node_modules : Path) (file_path : string) : Path :=
  if String.prefix "node_modules/" file_path then joinpath base_path file_path
  else joinpath node_modules file_path.

Definition manifest_result (pkg : package) (executable : executable)
    (file_path : string) (matches : list match_data) : result :=
  {| r_file := file_path;
     r_package := Some (default "unknown" (p_package pkg));
     r_version := Some (default "unknown" (p_version pkg));
     r_sha256 := Some (default "" (x_sha256 executable));
     r_type := Some (default "" (x_type executable));
     r_matches := matches |}.

(** One iteration of the inner loop; the state is [yara_results] and the
    counter [scanned]. *)
Definition scan_executable (rules : Rules) (timeout : Z)
    (base_path node_modules : Path) (total_files : Z) (pkg : package)
    (st : report * Z) (executable : executable) : Py (report * Z) :=
  let '(yara_results, scanned) := st in
  let file_path := default "" (x_file executable) in
  let full_path := manifest_full_path base_path node_modules file_path in
  if negb (exists_ full_path) then
    print_err ("Warning: File not found: " +:+ str full_path);;
    mret (yara_results, scanned)
  else
    let scanned := scanned + 1 in
    print_progress scanned total_files;;
    matches ← scan_file rules (str full_path) timeout;
    let yara_results := count_scanned yara_results in
    match matches with
    | [] => mret (yara_results, scanned)
    | _ :: _ =>
        let result := manifest_result pkg executable file_path matches in
        let yara_results := count_matches yara_results matches result in
        print_matches file_path matches;;
        mret (yara_results, scanned)
    end.

Definition package_files (pkg : package) : list executable :=
  default [] (p_files pkg).

Definition scan_package (rules : Rules) (timeout : Z)
    (base_path node_modules : Path) (total_files : Z)
    (st : report * Z) (pkg : package) : Py (report * Z) :=
  for_each (scan_executable rules timeout base_path node_modules total_files pkg)
    (package_files pkg) st.

(** The body of [scan_files_from_json] once the manifest is loaded. *)
Definition scan_manifest (rules : Rules) (json_path : string) (timeout : Z)
    (scan_results : scan_results) : Py report :=
  let base_path := parent (mkPath json_path) in
  let node_modules := joinpath base_path "node_modules" in
  let packages := default [] (sr_packages scan_results) in
  let total_files :=
    Z.of_nat (sum_list_with (λ pkg, length (package_files pkg)) packages) in
  print_err (nl +:+ "Scanning " +:+ pretty total_files +:+ " files with YARA...");;
  st ← for_each (scan_package rules timeout base_path node_modules total_files)
         packages (empty_report, 0);
  mret st.1.

Definition scan_files_from_json (rules : Rules) (json_path : string) (timeout : Z)
    : Py report :=
  scan_results ← call (json_load json_path);
  scan_manifest rules json_path timeout scan_results.

(** ** scan_directory *)

(** The files to scan: lines 209-219. *)
Definition discover_files (dir_path : Path) (include_patterns : option (list string))
    : list Path :=
  let files :=
    if include_patterns_given include_patterns then
      dict_fromkeys (default [] include_patterns ≫= rglob dir_path)
    else rglob dir_path "*" in
  filter (λ f, is_file f = true) files.

Definition directory_result (rel : Path) (matches : list match_data) : result :=
  {| r_file := str rel;
     r_package := None; r_version := None; r_sha256 := None; r_type := None;
     r_matches := matches |}.

(** [file_path.relative_to(dir_path)] *)
Definition relative_to_or_raise (file_path dir_path : Path) : Py Path :=
  match relative_to file_path dir_path with
  | Some rel => mret rel
  | None => raise (ValueError (str file_path +:+ " is not in the subpath of "
                                 +:+ str dir_path))
  end.

(** One iteration of the loop over [enumerate(files)]; the state is
    [yara_results] and the index [i].  The source adds to the two match
    counters before it evaluates [relative_to]; when that raises, the
    whole dict is lost with the call, so the order cannot be observed. *)
Definition scan_target (rules : Rules) (timeout : Z) (dir_path : Path)
    (nfiles : Z) (st : report * Z) (file_path : Path) : Py (report * Z) :=
  let '(yara_results, i) := st in
  print_progress (i + 1) nfiles;;
  matches ← scan_file rules (str file_path) timeout;
  let yara_results := count_scanned yara_results in
  match matches with
  | [] => mret (yara_results, i + 1)
  | _ :: _ =>
      rel ← relative_to_or_raise file_path dir_path;
      let result := directory_result rel matches in
      let yara_results := count_matches yara_results matches result in
      print_matches (str file_path) matches;;
      mret (yara_results, i + 1)
  end.

Definition scan_directory (rules : Rules) (directory : string) (timeout : Z)
    (include_patterns : option (list string)) : Py report :=
  let dir_path := mkPath directory in
  let files := discover_files dir_path include_patterns in
  let nfiles := Z.of_nat (length files) in
  print_err (nl +:+ "Scanning " +:+ pretty nfiles +:+ " files with YARA...");;
  st ← for_each (scan_target rules timeout dir_path nfiles) files (empty_report, 0);
  mret st.1.

(** ** emit_github_annotations *)

(** [str.upper] on ASCII letters; other characters are left as they are. *)
Definition ascii_upper (c : ascii) : ascii :=
  let n := N_of_ascii c in
  if ((97 <=? n) && (n <=? 122))%N then ascii_of_N (n - 32) else c.

Fixpoint str_upper (s : string) : string :=
  match s with
  | EmptyString => EmptyString
  | String c s' => String (ascii_upper c) (str_upper s')
  end.

(** [severity.upper()]: only a [str] has the method. *)
Definition severity_upper (severity : meta_value) : Py string :=
  match severity with
  | MStr s => mret (str_upper s)
  | MInt _ => raise (AttributeError "'int' object has no attribute 'upper'")
  | MBool _ => raise (AttributeError "'bool' object has no attribute 'upper'")
  end.

(** The body of the inner loop over a result's matches; the state is
    [high_severity_count]. *)
Definition annotate_match (file_path package : string)
    (high_severity_count : Z) (m : match_data) : Py Z :=
  let rule := md_rule m in
  let severity := meta_get m "severity" "unknown" in
  let description := meta_get m "description" "" in
  let category := meta_get m "category" "" in
  let message := file_path in
  let message :=
    if negb (String.eqb package "") then package +:+ ": " +:+ file_path else message in
  let message := message +:+ " - " +:+ rule in
  let message :=
    if truthy description then message +:+ " (" +:+ format_value description +:+ ")"
    else message in
  if decide (severity = MStr "critical" ∨ severity = MStr "high") then
    up ← severity_upper severity;
    print_out ("::error title=YARA " +:+ up +:+ " - " +:+ format_value category
                 +:+ "::" +:+ message);;
    mret (high_severity_count + 1)
  else if decide (severity = MStr "medium") then
    up ← severity_upper severity;
    print_out ("::warning title=YARA " +:+ up +:+ " - " +:+ format_value category
                 +:+ "::" +:+ message);;
    mret high_severity_count
  else
    up ← severity_upper severity;
    print_out ("::notice title=YARA " +:+ up +:+ " - " +:+ format_value category
                 +:+ "::" +:+ message);;
    mret high_severity_count.

Definition annotate_result (high_severity_count : Z) (r : result) : Py Z :=
  let file_path := r_file r in
  let package := default "" (r_package r) in
  for_each (annotate_match file_path package) (r_matches r) high_severity_count.

Definition emit_github_annotations (yara_results : report) : Py Z :=
  for_each annotate_result (results yara_results) 0.

(** ** load_rules *)

(** [d[k] = v] on a Python dict, which keeps insertion order: an existing
    key keeps its position and takes the new value, a new key goes last. *)
Fixpoint dict_set {V} (k : string) (v : V) (d : list (string * V)) : list (string * V) :=
  match d with
  | [] => [(k, v)]
  | (k', v') :: d' =>
      if decide (k = k') then (k, v) :: d' else (k', v') :: dict_set k v d'
  end.

(** [rule_files[rule_file.stem] = str(rule_file)] *)
Definition add_rule_file (rule_files : list (string * string)) (rule_file : Path)
    : list (string * string) :=
  dict_set (stem rule_file) (str rule_file) rule_files.

(** One iteration of the loop over [rules_paths]. *)
Definition add_rules_path (rule_files : list (string * string)) (path : string)
    : Py (list (string * string)) :=
  let path := mkPath path in
  if negb (exists_ path) then
    print_err ("Warning: Rules path does not exist: " +:+ str path);;
    mret rule_files
  else if is_file path && bool_decide (suffix path ∈ [".yar"; ".yara"]) then
    mret (add_rule_file rule_files path)
  else if is_dir path then
    let rule_files := foldl add_rule_file rule_files (glob path "*.yar") in
    let rule_files := foldl add_rule_file rule_files (glob path "*.yara") in
    mret rule_files
  else mret rule_files.

(** The dict [rule_files] after the loop, as passed to [yara.compile]. *)
Definition collect_rule_files (rules_paths : list string) : Py (list (string * string)) :=
  for_each add_rules_path rules_paths [].

Definition load_rules (rules_paths : list string) : Py (option Rules) :=
  rule_files ← collect_rule_files rules_paths;
  match rule_files with
  | [] => print_err "Warning: No YARA rules found";; mret None
  | _ :: _ =>
      print_err ("Loading " +:+ pretty (length rule_files) +:+ " rule file(s):");;
      for_each (λ _ '(namespace, path),
                  print_err ("  - " +:+ namespace +:+ ": " +:+ path))
        rule_files ();;
      try_except
        (rules ← call (yara_compile rule_files); mret (Some rules))
        (λ e, if is_SyntaxError e then
                Some (print_err ("Error compiling YARA rules: " +:+ exn_str e);;
                      raise (SystemExit 1))
              else None)
  end.

(** ** main *)

(** The namespace returned by [parser.parse_args()]. *)
Record args : Type := {
  args_input : option string;
  args_dir : option string;
  args_include : list string;
  args_rules : list string;
  args_output : option string;
  args_timeout : Z;
  args_github_annotations : bool;
  args_bundled_rules : bool;
  args_no_bundled_rules : bool
}.

(** Python truthiness of an optional string argument. *)
Definition given (a : option string) : bool :=
  match a with
  | Some s => negb (String.eqb s "")
  | None => false
  end.

(** [parser.error(message)]: argparse prints the message and exits with
    status 2. *)
Definition parser_error {A} (message : string) : Py A :=
  print_err ("error: " +:+ message);; raise (SystemExit 2).

(** [rules_paths] as collected by [main]. *)
Definition main_rules_paths (a : args) : list string :=
  let rules_paths := args_rules a in
  if negb (args_no_bundled_rules a) then
    let script_dir := parent (mkPath script_file) in
    let bundled_rules := joinpath script_dir "rules" in
    if exists_ bundled_rules then str bundled_rules :: rules_paths
    else rules_paths
  else rules_paths.

Definition when (b : bool) (m : Py unit) : Py unit := if b then m else mret ().

(** The [# Scan] step of [main]. *)
Definition run_scan (a : args) (rules : Rules) : Py report :=
  if given (args_input a) then
    scan_files_from_json rules (default "" (args_input a)) (args_timeout a)
  else
    let include_patterns :=
      match args_include a with [] => None | l => Some l end in
    scan_directory rules (default "" (args_dir a)) (args_timeout a) include_patterns.

(** The [# Output] step of [main]. *)
Definition write_output (a : args) (output_json : string) : Py unit :=
  if given (args_output a) then
    let output := default "" (args_output a) in
    match write_file output output_json with
    | Some e => raise e
    | None =>
        (inr (), [FileWrite output output_json]);;
        print_err (nl +:+ "Results written to: " +:+ output)
    end
  else print_out output_json.

Definition main (a : args) : Py unit :=
  when (negb (given (args_input a)) && negb (given (args_dir a)))
    (parser_error "Either --input or --dir must be specified");;
  let rules_paths := main_rules_paths a in
  when (bool_decide (rules_paths = []))
    (print_err "Error: No YARA rules specified";; raise (SystemExit 1));;
  rules ← load_rules rules_paths;
  match rules with
  | None => print_err "Error: Failed to load YARA rules";; raise (SystemExit 1)
  | Some rules =>
      yara_results ← run_scan a rules;
      print_err (nl +:+ "=== YARA Scan Summary ===");;
      print_err ("Files scanned: " +:+ pretty (totalScanned yara_results));;
      print_err ("Files with matches: " +:+ pretty (filesWithMatches yara_results));;
      print_err ("Total matches: " +:+ pretty (totalMatches yara_results));;
      when (args_github_annotations a)
        (high_count ← emit_github_annotations yara_results;
         print_err (nl +:+ "yara-matches=" +:+ pretty (filesWithMatches yara_results));;
         print_err ("yara-high-severity=" +:+ pretty high_count));;
      let output_json := json_dumps yara_results in
      write_output a output_json;;
      when (bool_decide (filesWithMatches yara_results > 0)) (raise (SystemExit 0));;
      raise (SystemExit 0)
  end.

(** The process exit status: the code given to [sys.exit], 1 for any
    other exception that reaches the top level, 130 for an interrupt. *)
Definition exit_status {A} (m : Py A) : Z :=
  match value m with
  | inl (SystemExit code) => code
  | inl KeyboardInterrupt => 130
  | inl _ => 1
  | inr _ => 0
  end.

End Scanner.

(** ** A small concrete world

    Paths are strings, the file system is a fixed table, and the engine
    answers from a table as well.  It serves to run the definitions above
    on concrete inputs. *)
Module Demo.

(** Split at the last occurrence of [sep]. *)
Fixpoint rsplit (sep : ascii) (s : string) : option (string * string) :=
  match s with
  | EmptyString => None
  | String a s' =>
      match rsplit sep s' with
      | Some (l, r) => Some (String a l, r)
      | None => if decide (a = sep) then Some (EmptyString, s') else None
      end
  end.

Definition name (p : string) : string :=
  match rsplit "/" p with Some (_, r) => r | None => p end.

Definition dirname (p : string) : string :=
  match rsplit "/" p with
  | Some (l, _) => if String.eqb l "" then "/" else l
  | None => "."
  end.

(** The name splits into stem_of and suffix_of at its last dot, unless that dot
    is its first or its last character. *)
Definition split_name (p : string) : string * string :=
  let n := name p in
  match rsplit "." n with
  | Some (l, r) =>
      if String.eqb l "" || String.eqb r "" then (n, "") else (l, "." +:+ r)
  | None => (n, "")
  end.

Definition stem_of (p : string) : string := (split_name p).1.
Definition suffix_of (p : string) : string := (split_name p).2.

Definition join (p s : string) : string :=
  if String.prefix "/" s then s else p +:+ "/" +:+ s.

Definition ends_with (e s : string) : bool :=
  String.prefix (String.rev e) (String.rev s).

(** Patterns of the forms [*] and [*ext]; any other pattern is a literal name. *)
Definition name_matches (pattern n : string) : bool :=
  match pattern with
  | String "*" e => ends_with e n
  | _ => String.eqb pattern n
  end.

Definition regular_files : list string :=
  [ "/opt/scanner/yara_scanner.py";
    "/opt/scanner/rules/malware.yar";
    "/opt/scanner/rules/miner.yar";
    "custom/malware.yara";
    "custom/broken.yar";
    "proj/binary-scan-results.json";
    "proj/node_modules/evil/bin/run.node";
    "proj/node_modules/evil/bin/slow.node";
    "proj/node_modules/evil/index.js";
    "proj/node_modules/evil/dist/app.min.js";
    "proj/node_modules/good/index.js" ].

Definition directories : list string :=
  [ "/opt/scanner"; "/opt/scanner/rules"; "custom"; "proj"; "proj/node_modules";
    "proj/node_modules/evil"; "proj/node_modules/evil/bin";
    "proj/node_modules/evil/dist"; "proj/node_modules/evil/legacy.js";
    "proj/node_modules/good" ].

Definition regular (p : string) : bool := bool_decide (p ∈ regular_files).
Definition directory (p : string) : bool := bool_decide (p ∈ directories).
Definition present (p : string) : bool := regular p || directory p.

Definition list_dir (d pattern : string) : list string :=
  filter (λ p, String.eqb (dirname p) d && name_matches pattern (name p) = true)
    (regular_files ++ directories).

Definition walk (d pattern : string) : list string :=
  filter (λ p, String.prefix (d +:+ "/") p && name_matches pattern (name p) = true)
    (regular_files ++ directories).

Definition strip_dir (p d : string) : option string :=
  if String.prefix (d +:+ "/") p
  then Some (String.substring (String.length d + 1)
               (String.length p - (String.length d + 1)) p)
  else None.

Definition meta_of (l : list (string * meta_value)) : gmap string meta_value :=
  list_to_map l.

Definition hit (i : nat) : string_match :=
  {| identifier := "$s" +:+ pretty i;
     instances := [ {| offset := 16 * Z.of_nat i |}; {| offset := 4096 |} ] |}.

Definition dropper : yara_match :=
  {| rule := "Dropper"; namespace := "malware"; tags := ["trojan"];
     meta := meta_of [("severity", MStr "critical"); ("category", MStr "malware");
                      ("description", MStr "drops a payload")];
     strings := hit <$> seq 0 12 |}.

Definition packed : yara_match :=
  {| rule := "Packed"; namespace := "malware"; tags := [];
     meta := meta_of [("severity", MStr "medium")];
     strings := [ {| identifier := "$upx"; instances := [] |} ] |}.

Definition scored : yara_match :=
  {| rule := "Scored"; namespace := "miner"; tags := [];
     meta := meta_of [("severity", MInt 3)];
     strings := [] |}.

Definition engine (rules : list (string * string)) (file_path : string)
    (timeout : Z) : exn + list yara_match :=
  if String.eqb file_path "proj/node_modules/evil/bin/run.node" then inr [dropper; packed]
  else if String.eqb file_path "proj/node_modules/evil/bin/slow.node" then inl TimeoutError
  else if String.eqb file_path "proj/node_modules/evil/dist/app.min.js" then inr [scored]
  else if String.eqb file_path "proj/node_modules/good/index.js"
       then inl (YaraError "could not map file")
  else inr [].

Definition compile (rule_files : list (string * string))
    : exn + list (string * string) :=
  if bool_decide ("custom/broken.yar" ∈ rule_files.*2)
  then inl (SyntaxError "custom/broken.yar(3): syntax error")
  else inr rule_files.

Definition manifest : scan_results :=
  {| sr_packages := Some
       [ {| p_package := Some "evil"; p_version := Some "1.0.2";
            p_files := Some
              [ {| x_file := Some "evil/bin/run.node"; x_sha256 := Some "ab12";
                   x_type := Some "ELF" |};
                {| x_file := Some "evil/bin/gone.node"; x_sha256 := Some "cd34";
                   x_type := Some "ELF" |};
                {| x_file := Some "node_modules/evil/bin/slow.node";
                   x_sha256 := None; x_type := None |} ] |};
         {| p_package := None; p_version := None;
            p_files := Some
              [ {| x_file := Some "good/index.js"; x_sha256 := None;
                   x_type := Some "script" |} ] |};
         {| p_package := Some "empty"; p_version := Some "0.0.1"; p_files := None |} ] |}.

Definition load_manifest (p : string) : exn + scan_results :=
  if String.eqb p "proj/binary-scan-results.json" then inr manifest
  else inl (OSError ("No such file or directory: " +:+ p)).

Definition dump (r : report) : string :=
  "{totalScanned: " +:+ pretty (totalScanned r) +:+ ", totalMatches: "
    +:+ pretty (totalMatches r) +:+ ", filesWithMatches: "
    +:+ pretty (filesWithMatches r) +:+ "}".

Definition write (p content : string) : option exn :=
  if String.prefix "/proc/" p then Some (OSError ("Permission denied: " +:+ p))
  else None.

#[export] Instance world : World := {|
  Path := string;
  mkPath := id;
  str := id;
  joinpath := join;
  parent := dirname;
  stem := stem_of;
  suffix := suffix_of;
  exists_ := present;
  is_file := regular;
  is_dir := directory;
  glob := list_dir;
  rglob := walk;
  relative_to := strip_dir;
  script_file := "/opt/scanner/yara_scanner.py";
  write_file := write;
  Rules := list (string * string);
  yara_compile := compile;
  rules_match := engine;
  json_load := load_manifest;
  json_dumps := dump
|}.


Definition manifest_run : Py report :=
  scan_files_from_json [] "proj/binary-scan-results.json" 60.

Definition directory_run : Py report :=
  scan_directory [] "proj/node_modules" 60 None.

(** A directory scan with annotations, restricted to minified scripts. *)
Definition annotate_args : args :=
  {| args_input := None; args_dir := Some "proj/node_modules";
     args_include := ["*.min.js"]; args_rules := [];
     args_output := None; args_timeout := 60; args_github_annotations := true;
     args_bundled_rules := true; args_no_bundled_rules := false |}.

(** The report of that scan: one file, matched by the rule whose
    [severity] is the integer 3. *)
Definition scored_report : report :=
  {| totalScanned := 1; totalMatches := 1; filesWithMatches := 1;
     results := [directory_result "evil/dist/app.min.js" [match_data_of scored]] |}.

(** The same world with an engine that is interrupted on every call. *)
Definition interrupted : World := {|
  Path := string;
  mkPath := id;
  str := id;
  joinpath := join;
  parent := dirname;
  stem := stem_of;
  suffix := suffix_of;
  exists_ := present;
  is_file := regular;
  is_dir := directory;
  glob := list_dir;
  rglob := walk;
  relative_to := strip_dir;
  script_file := "/opt/scanner/yara_scanner.py";
  write_file := write;
  Rules := list (string * string);
  yara_compile := compile;
  rules_match := λ _ _ _, inl KeyboardInterrupt;
  json_load := load_manifest;
  json_dumps := dump
|}.

(** A world whose only directory, [rules], holds [a.yar], [b.yar] and
    [a.yara]. *)
Definition twin_files : list string := ["rules/a.yar"; "rules/b.yar"; "rules/a.yara"].

Definition twins : World := {|
  Path := string;
  mkPath := id;
  str := id;
  joinpath := join;
  parent := dirname;
  stem := stem_of;
  suffix := suffix_of;
  exists_ := λ p, bool_decide (p ∈ "rules" :: twin_files);
  is_file := λ p, bool_decide (p ∈ twin_files);
  is_dir := λ p, bool_decide (p = "rules");
  glob := λ d pattern,
    filter (λ p, String.eqb (dirname p) d && name_matches pattern (name p) = true)
      twin_files;
  rglob := λ d pattern,
    filter (λ p, String.prefix (d +:+ "/") p && name_matches pattern (name p) = true)
      twin_files;
  relative_to := strip_dir;
  script_file := "/opt/scanner/yara_scanner.py";
  write_file := write;
  Rules := list (string * string);
  yara_compile := compile;
  rules_match := engine;
  json_load := load_manifest;
  json_dumps := dump
|}.

(** A manifest scan with annotations, with the user's rule file. *)
Definition manifest_args : args :=
  {| args_input := Some "proj/binary-scan-results.json"; args_dir := None;
     args_include := []; args_rules := ["custom/malware.yara"];
     args_output := None; args_timeout := 60; args_github_annotations := true;
     args_bundled_rules := true; args_no_bundled_rules := false |}.

(** The same run, writing its output where it may not. *)
Definition unwritable_args : args :=
  {| args_input := Some "proj/binary-scan-results.json"; args_dir := None;
     args_include := []; args_rules := ["custom/malware.yara"];
     args_output := Some "/proc/yara.json"; args_timeout := 60;
     args_github_annotations := true;
     args_bundled_rules := true; args_no_bundled_rules := false |}.


(** A directory scan without any rules. *)
Definition no_rules_args : args :=
  {| args_input := None; args_dir := Some "proj/node_modules";
     args_include := []; args_rules := [];
     args_output := None; args_timeout := 60; args_github_annotations := false;
     args_bundled_rules := true; args_no_bundled_rules := true |}.

(** The rule files of [manifest_args], compiled. *)
Definition loaded_rules : list (string * string) :=
  [("malware", "custom/malware.yara"); ("miner", "/opt/scanner/rules/miner.yar")].

End Demo.

(** ** Vocabulary of the statements *)

(** The elements of a list in the order of their first occurrence. *)
Fixpoint first_occurrences {A} `{EqDecision A} (l : list A) : list A :=
  match l with
  | [] => []
  | x :: l' => x :: filter (λ y, y ≠ x) (first_occurrences l')
  end.

Inductive level : Type := Error | Warning | Notice.

Definition level_name (lv : level) : string :=
  match lv with Error => "error" | Warning => "warning" | Notice => "notice" end.

(** The annotation level that goes with a severity string. *)
Definition severity_level (severity : string) : level :=
  if decide (severity = "critical" ∨ severity = "high") then Error
  else if decide (severity = "medium") then Warning
  else Notice.

Definition counters_ok (r : report) : Prop :=
  0 ≤ filesWithMatches r ≤ totalScanned r ∧ filesWithMatches r ≤ totalMatches r.

(** The strings of a match record, against the engine match it was made
    from. *)
Definition strings_capped (m : yara_match) (md : match_data) : Prop :=
  md_strings md
  = (λ sm, {| se_identifier := identifier sm;
              se_offset := match instances sm with
                           | i :: _ => offset i
                           | [] => 0
                           end |}) <$> take 10 (strings m)
  ∧ (length (md_strings md) ≤ 10)%nat.

(** The report a run returned, if it returned one. *)
Definition report_of (m : Py report) : report :=
  match value m with
  | inr r => r
  | inl _ => empty_report
  end.

(** A Python dict read as a finite map. *)
Definition dict_to_map {V} (d : list (string * V)) : gmap string V := list_to_map d.

Section Vocabulary.
Context `{World}.

(** The (namespace, path) assignments one rule source makes, in the order
    [load_rules] makes them. *)
Definition rule_source_entries (path : string) : list (string * string) :=
  let path := mkPath path in
  if negb (exists_ path) then []
  else if is_file path && bool_decide (suffix path ∈ [".yar"; ".yara"]) then
    [(stem path, str path)]
  else if is_dir path then
    ((λ f, (stem f, str f)) <$> glob path "*.yar")
      ++ ((λ f, (stem f, str f)) <$> glob path "*.yara")
  else [].

(** The bundled rules directory [main] looks for. *)
Definition bundled_rules : Path := joinpath (parent (mkPath script_file)) "rules".

Definition entry_present (base_path node_modules : Path) (x : executable) : bool :=
  exists_ (manifest_full_path base_path node_modules (default "" (x_file x))).

(** The manifest without the entries whose file does not exist. *)
Definition drop_missing (base_path node_modules : Path) (manifest : scan_results)
    : scan_results :=
  {| sr_packages := Some
       ((λ pkg, {| p_package := p_package pkg;
                   p_version := p_version pkg;
                   p_files := Some (filter (λ x, entry_present base_path node_modules x = true)
                                      (package_files pkg)) |})
          <$> default [] (sr_packages manifest)) |}.

(** The result record, if any, that one discovered file contributes. *)
Definition directory_results (rules : Rules) (timeout : Z) (dir_path : Path)
    (f : Path) : list result :=
  match value (scan_file rules (str f) timeout), relative_to f dir_path with
  | inr (m :: ms), Some rel => [directory_result rel (m :: ms)]
  | _, _ => []
  end.

(** The result record, if any, that one manifest entry contributes. *)
Definition manifest_results (rules : Rules) (timeout : Z)
    (base_path node_modules : Path) (pkg : package) (x : executable) : list result :=
  let file_path := default "" (x_file x) in
  let full_path := manifest_full_path base_path node_modules file_path in
  if exists_ full_path then
    match value (scan_file rules (str full_path) timeout) with
    | inr (m :: ms) => [manifest_result pkg x file_path (m :: ms)]
    | _ => []
    end
  else [].

End Vocabulary.

Section MoreVocabulary.
Context `{World}.

(** How [load_rules] ends, given the dict of rule files it collected. *)
Definition load_rules_outcome (rule_files : list (string * string))
    : exn + option Rules :=
  match rule_files with
  | [] => inr None
  | _ :: _ =>
      match yara_compile rule_files with
      | inr rules => inr (Some rules)
      | inl e => if is_SyntaxError e then inl (SystemExit 1) else inl e
      end
  end.

End MoreVocabulary.

(** The counters of a report agree with its list of results. *)
Definition totals_consistent (r : report) : Prop :=
  filesWithMatches r = Z.of_nat (length (results r))
  ∧ totalMatches r
    = Z.of_nat (sum_list_with (λ res, length (r_matches res)) (results r))
  ∧ Forall (λ res, r_matches res ≠ []) (results r).

(** All matches of a report, in the order [emit_github_annotations]
    visits them. *)
Definition all_matches (r : report) : list match_data :=
  results r ≫= r_matches.

(** The severity of a match is a string, or the match has none. *)
Definition string_severity (m : match_data) : Prop :=
  ∃ s, meta_get m "severity" "unknown" = MStr s.

(** The severity of a match is ['critical'] or ['high']. *)
Definition high_severity (m : match_data) : Prop :=
  meta_get m "severity" "unknown" = MStr "critical"
  ∨ meta_get m "severity" "unknown" = MStr "high".

Global Instance high_severity_dec m : Decision (high_severity m).
Proof. unfold high_severity. apply _. Defined.

(** The options of a run with another [--dir] and other [--include]
    patterns. *)
Definition with_directory (a : args) (dir : option string) (include : list string)
    : args :=
  {| args_input := args_input a; args_dir := dir; args_include := include;
     args_rules := args_rules a; args_output := args_output a;
     args_timeout := args_timeout a;
     args_github_annotations := args_github_annotations a;
     args_bundled_rules := args_bundled_rules a;
     args_no_bundled_rules := args_no_bundled_rules a |}.

(** What a match record keeps of the engine match it was made from. *)
Definition match_fields_kept (m : yara_match) (md : match_data) : Prop :=
  md_rule md = rule m
  ∧ md_namespace md = namespace m
  ∧ md_tags md = tags m
  ∧ md_meta md = meta m
  ∧ length (md_strings md) = (length (strings m) `min` 10)%nat
  ∧ ((length (strings m) ≤ 10)%nat → md_strings md = string_entry_of <$> strings m).

(** * Properties *)

(** ** Python dicts *)

Section Dicts.
Context {V : Type}.
Implicit Types d : list (string * V).

Lemma dict_to_map_set k v d :
  dict_to_map (dict_set k v d) = <[k:=v]> (dict_to_map d).
Proof.
  unfold dict_to_map. induction d as [|[k' v'] d IH]; simpl; [done|].
  case_decide as Hk; simpl.
  - subst k'. by rewrite insert_insert_eq.
  - by rewrite IH, insert_insert_ne.
Qed.

Lemma dict_to_map_set_all d (entries : list (string * V)) :
  dict_to_map (foldl (λ d e, dict_set e.1 e.2 d) d entries)
  = foldl (λ m e, <[e.1:=e.2]> m) (dict_to_map d) entries.
Proof.
  revert d. induction entries as [|e entries IH]; intros d; simpl; [done|].
  by rewrite IH, dict_to_map_set.
Qed.

(** After a run of assignments, a key holds the value of its last one. *)
Lemma lookup_last_assignment (m : gmap string V) before k v after :
  k ∉ after.*1 →
  foldl (λ m e, <[e.1:=e.2]> m) m (before ++ (k, v) :: after) !! k = Some v.
Proof.
  intros Hk. rewrite foldl_app. simpl.
  generalize (foldl (λ m e, <[e.1:=e.2]> m) m before). intros m'.
  assert (<[k:=v]> m' !! k = Some v) as Hm by apply lookup_insert_eq.
  revert Hm. generalize (<[k:=v]> m'). clear m m'.
  induction after as [|[k' v'] after IH]; intros m Hm; simpl; [done|].
  rewrite fmap_cons, not_elem_of_cons in Hk. destruct Hk as [Hne Hk].
  apply IH; [done|]. by rewrite lookup_insert_ne.
Qed.

(** An assignment to another key does not matter. *)
Lemma lookup_other_assignments (m : gmap string V) entries k :
  k ∉ entries.*1 →
  foldl (λ m e, <[e.1:=e.2]> m) m entries !! k = m !! k.
Proof.
  revert m. induction entries as [|[k' v'] entries IH]; intros m Hk; simpl; [done|].
  rewrite fmap_cons, not_elem_of_cons in Hk. destruct Hk as [Hne Hk].
  rewrite IH by done. by apply lookup_insert_ne.
Qed.

End Dicts.

(** ** dict.fromkeys *)

Section FromKeys.
Context {A : Type} `{EqDecision A}.
Implicit Types l acc : list A.

Lemma filter_all (P : A → Prop) `{∀ x, Decision (P x)} l :
  (∀ x, P x) → filter P l = l.
Proof.
  intros HP. induction l as [|x l IH]; [done|].
  by rewrite filter_cons_True, IH.
Qed.

Lemma elem_of_first_occurrences l x : x ∈ first_occurrences l ↔ x ∈ l.
Proof.
  induction l as [|y l IH]; simpl; [done|].
  rewrite !elem_of_cons, list_elem_of_filter, IH.
  destruct (decide (x = y)); tauto.
Qed.

Lemma NoDup_first_occurrences l : NoDup (first_occurrences l).
Proof.
  induction l as [|y l IH]; simpl; constructor.
  - rewrite list_elem_of_filter. tauto.
  - by apply NoDup_filter.
Qed.

Lemma dict_fromkeys_acc l acc :
  foldl (λ d k, if decide (k ∈ d) then d else d ++ [k]) acc l
  = acc ++ filter (λ x, x ∉ acc) (first_occurrences l).
Proof.
  revert acc. induction l as [|x l IH]; intros acc; simpl.
  - by rewrite app_nil_r.
  - rewrite IH. case_decide as Hx.
    + rewrite filter_cons_False by tauto.
      rewrite list_filter_filter. f_equal. apply list_filter_iff.
      intros y. split; [|tauto]. intros Hy. split; [done|]. by intros ->.
    + rewrite filter_cons_True by done.
      rewrite list_filter_filter, <- app_assoc. simpl. do 2 f_equal.
      apply list_filter_iff. intros y.
      rewrite not_elem_of_app, list_elem_of_singleton. tauto.
Qed.

Lemma dict_fromkeys_first_occurrences l : dict_fromkeys l = first_occurrences l.
Proof.
  unfold dict_fromkeys. rewrite dict_fromkeys_acc. simpl.
  apply filter_all. intros x. apply not_elem_of_nil.
Qed.

End FromKeys.

(** ** The computation type *)

Lemma bind_inr {A B} (m : Py A) (f : A → Py B) b t :
  m ≫= f = (inr b, t) →
  ∃ a t1 t2, m = (inr a, t1) ∧ f a = (inr b, t2) ∧ t = t1 ++ t2.
Proof.
  unfold mbind, Py_bind, py_bind.
  destruct m as [[e|a] t1]; [discriminate|].
  destruct (f a) as [r t2] eqn:Hf. intros [= -> <-]. by eexists _, _, _.
Qed.

Lemma bind_ok {A B} (m : Py A) (f : A → Py B) a t1 :
  m = (inr a, t1) → m ≫= f = ((f a).1, t1 ++ (f a).2).
Proof. intros ->. unfold mbind, Py_bind, py_bind. by destruct (f a). Qed.

Lemma bind_value {A B} (m : Py A) (f : A → Py B) :
  value (m ≫= f) = match value m with inl e => inl e | inr a => value (f a) end.
Proof.
  unfold mbind, Py_bind, py_bind, value.
  destruct m as [[e|a] t]; [done|]. simpl. by destruct (f a).
Qed.

Lemma bind_raise {A B} (m : Py A) (f : A → Py B) e t :
  m = (inl e, t) → m ≫= f = (inl e, t).
Proof. by intros ->. Qed.

Section Loops.
Context {A S : Type}.

(** A loop whose body keeps [P] keeps [P]. *)
Lemma for_each_invariant (P : S → Prop) (body : S → A → Py S) xs :
  (∀ s x s' t, P s → x ∈ xs → body s x = (inr s', t) → P s') →
  ∀ s s' t, P s → for_each body xs s = (inr s', t) → P s'.
Proof.
  induction xs as [|x xs IH]; intros Hbody s s' t Hs; simpl.
  - by intros [= <- _].
  - intros (s1 & t1 & t2 & Hx & Hrest & _)%bind_inr.
    eapply IH; [|eapply Hbody; [exact Hs| |exact Hx]; left|exact Hrest].
    intros ? ? ? ? ? ?. eapply Hbody; [done|by right].
Qed.


(** A component of the loop state that each iteration updates by a pure
    step is, after the loop, the fold of that step. *)
Lemma for_each_foldl {B} (proj : S → B) (step : B → A → B) (body : S → A → Py S) xs :
  (∀ s x s' t, x ∈ xs → body s x = (inr s', t) → proj s' = step (proj s) x) →
  ∀ s s' t, for_each body xs s = (inr s', t) → proj s' = foldl step (proj s) xs.
Proof.
  induction xs as [|x xs IH]; intros Hbody s s' t; simpl.
  - by intros [= <- _].
  - intros (s1 & t1 & t2 & Hx & Hrest & _)%bind_inr.
    rewrite <- (Hbody _ _ _ _ (list_elem_of_here _ _) Hx).
    eapply IH; [|exact Hrest].
    intros ? ? ? ? ?. apply Hbody. by right.
Qed.

(** In a loop that returned, every iteration returned. *)
Lemma for_each_iterations (body : S → A → Py S) xs s s' t x :
  for_each body xs s = (inr s', t) →
  x ∈ xs →
  ∃ s1 s2 t1, body s1 x = (inr s2, t1).
Proof.
  revert s t. induction xs as [|y xs IH]; intros s t Hrun Hx.
  - by apply elem_of_nil in Hx.
  - cbn [for_each] in Hrun.
    apply bind_inr in Hrun as (s1 & t1 & t2 & Hy & Hrest & _).
    apply elem_of_cons in Hx as [->|Hx]; [by eexists _, _, _|].
    by eapply IH.
Qed.

(** The value of a loop depends only on the values of its iterations. *)
Lemma for_each_value_ext (body body' : S → A → Py S) xs :
  (∀ s x, x ∈ xs → value (body s x) = value (body' s x)) →
  ∀ s, value (for_each body xs s) = value (for_each body' xs s).
Proof.
  induction xs as [|x xs IH]; intros Hbody s; simpl; [done|].
  rewrite !bind_value, (Hbody s x) by left.
  destruct (value (body' s x)); [done|].
  apply IH. intros ? ? ?. apply Hbody. by right.
Qed.

End Loops.

Lemma ret_inr {A} (a b : A) (t : list event) :
  mret (M := Py) a = (inr b, t) → a = b ∧ t = [].
Proof. by intros [= -> <-]. Qed.

(** Take apart a hypothesis saying that a sequence of steps returned. *)
Ltac py_invert :=
  repeat match goal with
  | H : _ ≫= _ = (inr _, _) |- _ =>
      let H' := fresh H in
      apply bind_inr in H as (? & ? & ? & H' & H & ->)
  | H : mret _ = (inr _, _) |- _ => apply ret_inr in H as [<- ->]
  end.

(** Case analysis on [if matches:] in a hypothesis. *)
Ltac case_matches :=
  match goal with
  | H : context [match ?l with [] => _ | _ :: _ => _ end] |- _ =>
      is_var l; destruct l
  end.

Ltac revert_loop :=
  match goal with H : for_each _ _ _ = _ |- _ => revert H end.

(** ** The report's counters *)

Section ScanFacts.
Context `{World}.

Lemma scan_executable_counters rules timeout base nm total pkg st x st' t :
  counters_ok st.1 →
  scan_executable rules timeout base nm total pkg st x = (inr st', t) →
  counters_ok st'.1.
Proof.
  destruct st as [r n]. unfold scan_executable, counters_ok.
  cbn [fst]. intros Hr. destruct (negb _).
  - by intros [= <- _].
  - intros Hrun. py_invert. case_matches; py_invert; simpl; lia.
Qed.

Lemma scan_target_counters rules timeout dir n st f st' t :
  counters_ok st.1 →
  scan_target rules timeout dir n st f = (inr st', t) →
  counters_ok st'.1.
Proof.
  destruct st as [r i]. unfold scan_target, counters_ok. cbn [fst]. intros Hr Hrun.
  py_invert. case_matches; py_invert; simpl; lia.
Qed.

Lemma counters_ok_empty : counters_ok empty_report.
Proof. unfold counters_ok. simpl. lia. Qed.

Lemma scan_files_from_json_counters rules json_path timeout r t :
  scan_files_from_json rules json_path timeout = (inr r, t) → counters_ok r.
Proof.
  unfold scan_files_from_json, scan_manifest. intros Hrun. py_invert.
  revert_loop. apply for_each_invariant with (P := λ st, counters_ok st.1);
    [|apply counters_ok_empty].
  intros st pkg st' t' Hst _. unfold scan_package.
  apply for_each_invariant with (P := λ st, counters_ok st.1); [|done].
  intros ? ? ? ? ? _. by apply scan_executable_counters.
Qed.

Lemma scan_directory_counters rules directory timeout include_patterns r t :
  scan_directory rules directory timeout include_patterns = (inr r, t) →
  counters_ok r.
Proof.
  unfold scan_directory. intros Hrun. py_invert.
  revert_loop. apply for_each_invariant with (P := λ st, counters_ok st.1);
    [|apply counters_ok_empty].
  intros ? ? ? ? ? _. by apply scan_target_counters.
Qed.

(** ** scan_file, case by case *)

Lemma scan_file_returns rules file_path timeout results :
  rules_match rules file_path timeout = inr results →
  scan_file rules file_path timeout = (inr (match_data_of <$> results), []).
Proof. unfold scan_file, call. by intros ->. Qed.

Lemma scan_file_handles rules file_path timeout e :
  rules_match rules file_path timeout = inl e →
  is_Exception e = true →
  ∃ warning, scan_file rules file_path timeout = (inr [], [Stderr warning])
             ∧ String.prefix "Warning: " warning = true.
Proof.
  unfold scan_file, call. intros -> He.
  destruct e; try discriminate He; by eexists.
Qed.

Lemma scan_file_propagates rules file_path timeout e :
  rules_match rules file_path timeout = inl e →
  is_Exception e = false →
  scan_file rules file_path timeout = (inl e, []).
Proof.
  unfold scan_file, call. intros -> He. by destruct e.
Qed.


Lemma print_progress_returns done total :
  ∃ t, print_progress done total = (inr (), t).
Proof. unfold print_progress. case_decide; by eexists. Qed.

(** A target for which [scan_file] came back empty-handed is counted as
    scanned and leaves no other mark on the report. *)
Lemma scan_target_no_matches rules timeout dir n r i f t :
  scan_file rules (str f) timeout = (inr [], t) →
  ∃ t', scan_target rules timeout dir n (r, i) f = (inr (count_scanned r, i + 1), t').
Proof.
  intros Hscan. unfold scan_target.
  destruct (print_progress_returns (i + 1) n) as [tp Hp].
  rewrite (bind_ok _ _ _ _ Hp). cbn [fst snd].
  rewrite (bind_ok _ _ _ _ Hscan). by eexists.
Qed.

Lemma scan_executable_no_matches rules timeout base nm total pkg r n x t :
  let full_path := manifest_full_path base nm (default "" (x_file x)) in
  exists_ full_path = true →
  scan_file rules (str full_path) timeout = (inr [], t) →
  ∃ t', scan_executable rules timeout base nm total pkg (r, n) x
        = (inr (count_scanned r, n + 1), t').
Proof.
  intros full_path Hex Hscan. unfold scan_executable. fold full_path.
  rewrite Hex. cbn [negb].
  destruct (print_progress_returns (n + 1) total) as [tp Hp].
  rewrite (bind_ok _ _ _ _ Hp). cbn [fst snd].
  rewrite (bind_ok _ _ _ _ Hscan). by eexists.
Qed.

(** ** Manifest entries whose file is missing *)

Lemma scan_executable_missing rules timeout base nm total pkg st x :
  entry_present base nm x = false →
  scan_executable rules timeout base nm total pkg st x
  = (inr st, [Stderr ("Warning: File not found: "
                        +:+ str (manifest_full_path base nm (default "" (x_file x))))]).
Proof.
  unfold entry_present, scan_executable. destruct st as [r n]. by intros ->.
Qed.

Lemma print_progress_value done total : value (print_progress done total) = inr ().
Proof. unfold print_progress. by case_decide. Qed.

Lemma print_matches_value label matches : value (print_matches label matches) = inr ().
Proof.
  unfold print_matches. induction matches as [|m ms IH]; [done|].
  cbn [for_each]. by rewrite bind_value.
Qed.

(** The value of an iteration depends neither on the announced total nor
    on more of the package than its name and version. *)
Lemma scan_executable_value rules timeout base nm total total' pkg pkg' st x :
  p_package pkg = p_package pkg' →
  p_version pkg = p_version pkg' →
  value (scan_executable rules timeout base nm total pkg st x)
  = value (scan_executable rules timeout base nm total' pkg' st x).
Proof.
  intros Hname Hversion. destruct st as [r n]. unfold scan_executable.
  destruct (negb _); [done|].
  rewrite !bind_value, !print_progress_value. cbn beta iota.
  destruct (value (scan_file _ _ _)) as [e|[|m ms]]; [done..|].
  rewrite !bind_value, !print_matches_value.
  unfold manifest_result. by rewrite Hname, Hversion.
Qed.

Lemma scan_package_drop_missing rules timeout base nm total total' pkg pkg' st :
  p_package pkg = p_package pkg' →
  p_version pkg = p_version pkg' →
  package_files pkg' = filter (λ x, entry_present base nm x = true) (package_files pkg) →
  value (scan_package rules timeout base nm total st pkg)
  = value (scan_package rules timeout base nm total' st pkg').
Proof.
  intros Hname Hversion Hfiles. unfold scan_package. rewrite Hfiles.
  clear Hfiles. revert st. induction (package_files pkg) as [|x xs IH]; intros st; [done|].
  rewrite filter_cons. destruct (entry_present base nm x) eqn:Hx.
  - rewrite decide_True by done. simpl. rewrite !bind_value.
    rewrite (scan_executable_value _ _ _ _ total total' pkg pkg') by done.
    destruct (value _); [done|]. apply IH.
  - rewrite decide_False by done. simpl.
    rewrite bind_value, scan_executable_missing by done. apply IH.
Qed.

Lemma for_each_fmap {A B S} (f : A → B) (body : S → B → Py S) xs s :
  for_each body (f <$> xs) s = for_each (λ s x, body s (f x)) xs s.
Proof.
  revert s. induction xs as [|x xs IH]; intros s; [done|].
  cbn [fmap list_fmap for_each]. unfold mbind, Py_bind, py_bind.
  destruct (body s (f x)) as [[e|s1] t]; [done|]. by rewrite <- IH.
Qed.

Lemma scan_manifest_drop_missing rules json_path timeout manifest :
  let base_path := parent (mkPath json_path) in
  let node_modules := joinpath base_path "node_modules" in
  value (scan_manifest rules json_path timeout manifest)
  = value (scan_manifest rules json_path timeout
             (drop_missing base_path node_modules manifest)).
Proof.
  intros base_path node_modules. unfold scan_manifest. fold base_path node_modules.
  rewrite !bind_value. cbn [value print_err fst].
  unfold drop_missing. cbn [sr_packages from_option id].
  rewrite for_each_fmap.
  erewrite for_each_value_ext; [done|].
  intros st pkg _. by apply scan_package_drop_missing.
Qed.

(** ** load_rules: the namespace mapping *)

Lemma add_rules_path_entries rule_files path :
  value (add_rules_path rule_files path)
  = inr (foldl (λ d e, dict_set e.1 e.2 d) rule_files (rule_source_entries path)).
Proof.
  unfold add_rules_path, rule_source_entries.
  destruct (negb _); [done|]. destruct (_ && _); [done|].
  destruct (is_dir _); [|done].
  cbn [value mret Py_ret fst]. by rewrite foldl_app, !foldl_fmap.
Qed.

Lemma for_each_add_rules_path rules_paths rule_files :
  value (for_each add_rules_path rules_paths rule_files)
  = inr (foldl (λ d e, dict_set e.1 e.2 d) rule_files
           (rules_paths ≫= rule_source_entries)).
Proof.
  revert rule_files. induction rules_paths as [|p ps IH]; intros rf; [done|].
  cbn [for_each]. rewrite bind_value, add_rules_path_entries, IH.
  by rewrite bind_cons, foldl_app.
Qed.

Lemma collect_rule_files_map rules_paths rule_files t :
  collect_rule_files rules_paths = (inr rule_files, t) →
  dict_to_map rule_files
  = foldl (λ m e, <[e.1:=e.2]> m) ∅ (rules_paths ≫= rule_source_entries).
Proof.
  intros Hrun. pose proof (for_each_add_rules_path rules_paths []) as Hv.
  unfold collect_rule_files in Hrun. rewrite Hrun in Hv.
  injection Hv as ->. by rewrite dict_to_map_set_all.
Qed.

Lemma collect_rule_files_returns rules_paths :
  ∃ rule_files t, collect_rule_files rules_paths = (inr rule_files, t).
Proof.
  pose proof (for_each_add_rules_path rules_paths []) as Hv.
  unfold collect_rule_files. destruct (for_each _ _ _) as [r t].
  simpl in Hv. subst r. by eexists _, _.
Qed.

(** In any list of rule sources, a namespace ends up with the path of the
    last assignment made to it. *)
Lemma collect_rule_files_last before src after e1 k v e2 rule_files t :
  rule_source_entries src = e1 ++ (k, v) :: e2 →
  k ∉ e2.*1 →
  (∀ q, q ∈ after → k ∉ (rule_source_entries q).*1) →
  collect_rule_files (before ++ src :: after) = (inr rule_files, t) →
  dict_to_map rule_files !! k = Some v.
Proof.
  intros Hsrc He2 Hafter Hrun.
  rewrite (collect_rule_files_map _ _ _ Hrun).
  rewrite bind_app, bind_cons, Hsrc, <- !app_assoc, app_assoc. simpl.
  apply lookup_last_assignment.
  rewrite fmap_app, not_elem_of_app. split; [done|].
  intros (e & -> & (q & He & Hq)%list_elem_of_bind)%list_elem_of_fmap.
  apply (Hafter q Hq), list_elem_of_fmap. eauto.
Qed.

Lemma main_rules_paths_bundled a :
  args_no_bundled_rules a = false →
  exists_ bundled_rules = true →
  main_rules_paths a = str bundled_rules :: args_rules a.
Proof. unfold main_rules_paths, bundled_rules. by intros -> ->. Qed.

Lemma main_rules_paths_suffix a :
  ∃ front, main_rules_paths a = front ++ args_rules a.
Proof.
  unfold main_rules_paths. destruct (negb _); [|by exists []].
  destruct (exists_ _); [by eexists [_]|by exists []].
Qed.

(** ** What the loops leave in the report *)

Lemma scan_target_results rules timeout dir n st f st' t :
  scan_target rules timeout dir n st f = (inr st', t) →
  results st'.1 = results st.1 ++ directory_results rules timeout dir f.
Proof.
  destruct st as [r i]. unfold scan_target, directory_results, relative_to_or_raise.
  intros Hrun. py_invert.
  match goal with Hs : scan_file _ _ _ = _ |- _ => rewrite Hs end.
  case_matches; py_invert; simpl.
  - by rewrite app_nil_r.
  - destruct (relative_to f dir); [|discriminate]. by py_invert.
Qed.

Lemma scan_target_scanned rules timeout dir n st f st' t :
  scan_target rules timeout dir n st f = (inr st', t) →
  totalScanned st'.1 = totalScanned st.1 + 1.
Proof.
  destruct st as [r i]. unfold scan_target. intros Hrun. py_invert.
  by case_matches; py_invert.
Qed.

Lemma scan_executable_results rules timeout base nm total pkg st x st' t :
  scan_executable rules timeout base nm total pkg st x = (inr st', t) →
  results st'.1 = results st.1 ++ manifest_results rules timeout base nm pkg x.
Proof.
  destruct st as [r n]. unfold scan_executable, manifest_results.
  destruct (exists_ _); cbn [negb].
  - intros Hrun. py_invert.
    match goal with Hs : scan_file _ _ _ = _ |- _ => rewrite Hs end.
    case_matches; py_invert; simpl; [by rewrite app_nil_r|done].
  - intros [= <- _]. by rewrite app_nil_r.
Qed.

Lemma scan_target_relative rules timeout dir n st f st' t matches t' :
  scan_target rules timeout dir n st f = (inr st', t) →
  scan_file rules (str f) timeout = (inr matches, t') →
  matches ≠ [] →
  ∃ rel, relative_to f dir = Some rel.
Proof.
  destruct st as [r i]. unfold scan_target, relative_to_or_raise.
  intros Hrun Hscan Hne. py_invert.
  match goal with Hs : scan_file _ _ _ = (inr ?l, _) |- _ =>
    rewrite Hscan in Hs; injection Hs as <- <- end.
  destruct matches; [done|]. py_invert.
  destruct (relative_to f dir); [by eexists|discriminate].
Qed.

Lemma foldl_app_bind {A B} (g : A → list B) (xs : list A) (acc : list B) :
  foldl (λ acc x, acc ++ g x) acc xs = acc ++ (xs ≫= g).
Proof.
  revert acc. induction xs as [|x xs IH]; intros acc; simpl.
  - by rewrite app_nil_r.
  - by rewrite IH, app_assoc.
Qed.

Lemma foldl_count {A} (xs : list A) (n : Z) :
  foldl (λ n _, n + 1) n xs = n + Z.of_nat (length xs).
Proof.
  revert n. induction xs as [|x xs IH]; intros n; simpl; [lia|].
  rewrite IH. lia.
Qed.

Lemma scan_directory_results rules directory timeout include_patterns r t :
  scan_directory rules directory timeout include_patterns = (inr r, t) →
  results r = discover_files (mkPath directory) include_patterns
                ≫= directory_results rules timeout (mkPath directory).
Proof.
  unfold scan_directory. intros Hrun. py_invert. revert_loop. intros Hloop.
  eapply (for_each_foldl (λ st, results st.1)
            (λ acc f, acc ++ directory_results rules timeout (mkPath directory) f))
    in Hloop.
  - by rewrite Hloop, foldl_app_bind.
  - intros ? ? ? ? _. apply scan_target_results.
Qed.

Lemma scan_directory_scanned rules directory timeout include_patterns r t :
  scan_directory rules directory timeout include_patterns = (inr r, t) →
  totalScanned r
  = Z.of_nat (length (discover_files (mkPath directory) include_patterns)).
Proof.
  unfold scan_directory. intros Hrun. py_invert. revert_loop. intros Hloop.
  eapply (for_each_foldl (λ st, totalScanned st.1) (λ n _, n + 1)) in Hloop.
  - rewrite Hloop, foldl_count. simpl. lia.
  - intros ? ? ? ? _. apply scan_target_scanned.
Qed.

Lemma scan_files_from_json_results rules json_path timeout manifest r t :
  json_load json_path = inr manifest →
  scan_files_from_json rules json_path timeout = (inr r, t) →
  let base_path := parent (mkPath json_path) in
  let node_modules := joinpath base_path "node_modules" in
  results r = default [] (sr_packages manifest) ≫= λ pkg,
                package_files pkg ≫=
                  manifest_results rules timeout base_path node_modules pkg.
Proof.
  unfold scan_files_from_json, scan_manifest. intros Hload Hrun.
  rewrite Hload in Hrun.
  py_invert. match goal with Hc : call _ = _ |- _ => injection Hc as <- <- end.
  revert_loop. intros Hloop. simpl.
  eapply (for_each_foldl (λ st, results st.1)
            (λ acc pkg, acc ++ (package_files pkg ≫= manifest_results rules timeout
                                  (parent (mkPath json_path))
                                  (joinpath (parent (mkPath json_path)) "node_modules")
                                  pkg)))
    in Hloop.
  - by rewrite Hloop, foldl_app_bind.
  - intros st pkg st' t' _ Hpkg. unfold scan_package in Hpkg.
    eapply (for_each_foldl (λ st, results st.1)) in Hpkg.
    + rewrite Hpkg. apply foldl_app_bind.
    + intros ? ? ? ? _. apply scan_executable_results.
Qed.

End ScanFacts.

(** ** Annotations *)

Lemma annotate_match_string file_path package n m s :
  meta_get m "severity" "unknown" = MStr s →
  ∃ rest,
    annotate_match file_path package n m
    = (inr (match severity_level s with Error => n + 1 | _ => n end),
       [Stdout ("::" +:+ level_name (severity_level s) +:+ " title=YARA "
                  +:+ str_upper s +:+ rest)]).
Proof.
  intros Hs. unfold annotate_match, severity_level. rewrite Hs.
  repeat case_decide; try (exfalso; intuition congruence); by eexists.
Qed.

Lemma annotate_match_not_string file_path package n m :
  (∀ s, meta_get m "severity" "unknown" ≠ MStr s) →
  ∃ msg, annotate_match file_path package n m = (inl (AttributeError msg), []).
Proof.
  intros Hs. unfold annotate_match.
  destruct (meta_get m "severity" "unknown") as [s| |] eqn:Hsev;
    [by destruct (Hs s)|..];
    repeat case_decide; try (exfalso; intuition congruence); by eexists.
Qed.

(** ** main *)

Section MainFacts.
Context `{World}.

Lemma exit_status_bind_raise {A B} (m : Py A) (k : A → Py B) e :
  value m = inl e → exit_status (m ≫= k) = exit_status m.
Proof. unfold exit_status. rewrite bind_value. by intros ->. Qed.

(** Without annotations, a run whose rules load, whose scan returns and
    whose output can be written ends with status 0. *)
Lemma main_exits_zero a rules report t1 t2 :
  given (args_input a) || given (args_dir a) = true →
  main_rules_paths a ≠ [] →
  load_rules (main_rules_paths a) = (inr (Some rules), t1) →
  run_scan a rules = (inr report, t2) →
  args_github_annotations a = false →
  (given (args_output a) = true →
   write_file (default "" (args_output a)) (json_dumps report) = None) →
  exit_status (main a) = 0.
Proof.
  intros Hsrc Hpaths Hload Hscan Hann Hout. unfold main, exit_status.
  assert (negb (given (args_input a)) && negb (given (args_dir a)) = false) as ->
    by (destruct (given (args_input a)), (given (args_dir a)); done).
  rewrite bool_decide_eq_false_2 by done.
  rewrite Hann. unfold when.
  repeat (rewrite bind_value; cbn [value mret Py_ret fst]).
  rewrite Hload. cbn [value fst].
  repeat (rewrite bind_value; cbn [value mret Py_ret print_err fst]).
  rewrite Hscan. cbn [value fst].
  repeat (rewrite bind_value; cbn [value mret Py_ret print_err fst]).
  assert (value (write_output a (json_dumps report)) = inr ()) as ->.
  { unfold write_output. destruct (given (args_output a)); [|done].
    by rewrite Hout. }
  by case_bool_decide.
Qed.

End MainFacts.

(** * The claims *)

Section Claims.
Context `{World}.

(** C1. A completed scan, by [scan_files_from_json] or by [scan_directory],
    returns a report with [filesWithMatches ≤ totalScanned] and
    [totalMatches ≥ filesWithMatches]. *)
Theorem completed_scan_counters :
  (∀ rules json_path timeout report t,
     scan_files_from_json rules json_path timeout = (inr report, t) →
     filesWithMatches report ≤ totalScanned report
     ∧ totalMatches report >= filesWithMatches report)
  ∧ (∀ rules directory timeout include_patterns report t,
       scan_directory rules directory timeout include_patterns = (inr report, t) →
       filesWithMatches report ≤ totalScanned report
       ∧ totalMatches report >= filesWithMatches report).
Proof.
  split.
  - intros ? ? ? ? ? Hrun. apply scan_files_from_json_counters in Hrun.
    unfold counters_ok in Hrun. lia.
  - intros ? ? ? ? ? ? Hrun. apply scan_directory_counters in Hrun.
    unfold counters_ok in Hrun. lia.
Qed.

(** C2. When the engine call for a target raises a timeout, an engine
    error or any other [Exception], [scan_file] prints one warning and
    returns the empty list of matches; the iteration of either scan loop
    that called it returns as well, with the target counted as scanned,
    so the loop goes on to the next target. *)
Theorem scan_file_swallows_errors rules file_path timeout e :
  rules_match rules file_path timeout = inl e →
  is_Exception e = true →
  (∃ warning,
     scan_file rules file_path timeout = (inr [], [Stderr warning])
     ∧ String.prefix "Warning: " warning = true)
  ∧ (∀ dir_path nfiles yara_results i f,
       str f = file_path →
       ∃ t, scan_target rules timeout dir_path nfiles (yara_results, i) f
            = (inr (count_scanned yara_results, i + 1), t))
  ∧ (∀ base_path node_modules total_files pkg yara_results scanned x,
       let full_path := manifest_full_path base_path node_modules
                          (default "" (x_file x)) in
       exists_ full_path = true →
       str full_path = file_path →
       ∃ t, scan_executable rules timeout base_path node_modules total_files pkg
              (yara_results, scanned) x
            = (inr (count_scanned yara_results, scanned + 1), t)).
Proof.
  intros Hraise He.
  destruct (scan_file_handles _ _ _ _ Hraise He) as (w & Hscan & Hw).
  split; [by exists w|]. split.
  - intros ? ? ? ? f <-. by eapply scan_target_no_matches.
  - intros ? ? ? ? ? ? x full_path Hex Hpath.
    eapply scan_executable_no_matches; [done|]. fold full_path. by rewrite Hpath.
Qed.

(** C3. For the results the engine returns, [scan_file] returns one match
    record per engine match, in order, and the record's strings are the
    (identifier, offset) pairs of the first 10 matched strings, so at
    most 10 of them. *)
Theorem match_strings_capped rules file_path timeout engine_results :
  rules_match rules file_path timeout = inr engine_results →
  ∃ matches,
    scan_file rules file_path timeout = (inr matches, [])
    ∧ Forall2 strings_capped engine_results matches.
Proof.
  intros Hm. exists (match_data_of <$> engine_results).
  split; [by apply scan_file_returns|].
  apply Forall2_fmap_r, Forall_Forall2_diag, Forall_forall.
  intros m _. split; [done|].
  simpl. rewrite length_fmap, length_take. lia.
Qed.

(** C6. In the report of a completed directory scan, every result record
    belongs to a discovered file with at least one match, names it by its
    path relative to the scan root and carries its matches, and has no
    package, version, sha256 or type field; and every discovered file with
    at least one match has such a record. *)
Theorem directory_result_has_relative_path_only
    rules directory timeout include_patterns report t :
  scan_directory rules directory timeout include_patterns = (inr report, t) →
  let dir_path := mkPath directory in
  let files := discover_files dir_path include_patterns in
  (∀ res, res ∈ results report →
     ∃ f rel t',
       f ∈ files
       ∧ scan_file rules (str f) timeout = (inr (r_matches res), t')
       ∧ r_matches res ≠ []
       ∧ relative_to f dir_path = Some rel
       ∧ r_file res = str rel
       ∧ r_package res = None ∧ r_version res = None
       ∧ r_sha256 res = None ∧ r_type res = None)
  ∧ (∀ f matches t',
       f ∈ files →
       scan_file rules (str f) timeout = (inr matches, t') →
       matches ≠ [] →
       ∃ rel, relative_to f dir_path = Some rel
              ∧ directory_result rel matches ∈ results report).
Proof.
  intros Hrun dir_path files.
  pose proof (scan_directory_results _ _ _ _ _ _ Hrun) as Hres.
  fold dir_path files in Hres. split.
  - intros res. rewrite Hres.
    intros (f & Hin & Hf)%list_elem_of_bind. unfold directory_results in Hin.
    destruct (scan_file rules (str f) timeout) as [[e|[|m ms]] t'] eqn:Hscan;
      cbn [value fst] in Hin; try by apply elem_of_nil in Hin.
    destruct (relative_to f dir_path) as [rel|] eqn:Hrel;
      [|by apply elem_of_nil in Hin].
    apply list_elem_of_singleton in Hin as ->. by exists f, rel, t'.
  - intros f matches t' Hf Hscan Hne.
    unfold scan_directory in Hrun. py_invert. revert_loop. intros Hloop.
    destruct (for_each_iterations _ _ _ _ _ f Hloop Hf) as (s1 & s2 & t1 & Hstep).
    destruct (scan_target_relative _ _ _ _ _ _ _ _ _ _ Hstep Hscan Hne)
      as [rel Hrel].
    exists rel. split; [done|]. rewrite Hres. apply list_elem_of_bind.
    exists f. split; [|done]. unfold directory_results.
    fold dir_path in Hrel. rewrite Hscan, Hrel. cbn [value fst].
    destruct matches; [done|]. by left.
Qed.

(** C7. In the report of a completed manifest scan, every result record
    belongs to a manifest entry whose file exists and has at least one
    match, and carries the entry's relative file path, the package's name
    and version (['unknown'] where the manifest has none) and the entry's
    sha256 and type (empty where the manifest has none); and every such
    entry has its record. *)
Theorem manifest_result_carries_package_fields
    rules json_path timeout manifest report t :
  json_load json_path = inr manifest →
  scan_files_from_json rules json_path timeout = (inr report, t) →
  let base_path := parent (mkPath json_path) in
  let node_modules := joinpath base_path "node_modules" in
  let full_path x := manifest_full_path base_path node_modules (default "" (x_file x)) in
  (∀ res, res ∈ results report →
     ∃ pkg x t',
       pkg ∈ default [] (sr_packages manifest)
       ∧ x ∈ package_files pkg
       ∧ exists_ (full_path x) = true
       ∧ scan_file rules (str (full_path x)) timeout = (inr (r_matches res), t')
       ∧ r_matches res ≠ []
       ∧ r_file res = default "" (x_file x)
       ∧ r_package res = Some (default "unknown" (p_package pkg))
       ∧ r_version res = Some (default "unknown" (p_version pkg))
       ∧ r_sha256 res = Some (default "" (x_sha256 x))
       ∧ r_type res = Some (default "" (x_type x)))
  ∧ (∀ pkg x matches t',
       pkg ∈ default [] (sr_packages manifest) →
       x ∈ package_files pkg →
       exists_ (full_path x) = true →
       scan_file rules (str (full_path x)) timeout = (inr matches, t') →
       matches ≠ [] →
       manifest_result pkg x (default "" (x_file x)) matches ∈ results report).
Proof.
  intros Hload Hrun base_path node_modules full_path.
  pose proof (scan_files_from_json_results _ _ _ _ _ _ Hload Hrun) as Hres.
  fold base_path node_modules in Hres. rewrite Hres. split.
  - intros res (pkg & (x & Hin & Hx)%list_elem_of_bind & Hpkg)%list_elem_of_bind.
    unfold manifest_results in Hin.
    change (manifest_full_path _ _ _) with (full_path x) in Hin.
    destruct (exists_ (full_path x)) eqn:Hex; [|by apply elem_of_nil in Hin].
    destruct (scan_file rules (str (full_path x)) timeout) as [[e|[|m ms]] t'] eqn:Hscan;
      cbn [value fst] in Hin; try by apply elem_of_nil in Hin.
    apply list_elem_of_singleton in Hin as ->. by exists pkg, x, t'.
  - intros pkg x matches t' Hpkg Hx Hex Hscan Hne.
    apply list_elem_of_bind. exists pkg. split; [|done].
    apply list_elem_of_bind. exists x. split; [|done].
    unfold manifest_results.
    change (manifest_full_path _ _ _) with (full_path x).
    rewrite Hex, Hscan. cbn [value fst].
    destruct matches; [done|]. by left.
Qed.

(** C8. A manifest entry whose resolved path does not exist is skipped:
    its iteration prints the warning and returns the report and the
    counter of scanned files as they were, whatever the engine would have
    said about it; and a scan of a manifest ends exactly as the scan of
    the same manifest without its missing entries does, whether it returns
    a report or is cut short. *)
Theorem missing_manifest_entry_skipped rules json_path timeout :
  let base_path := parent (mkPath json_path) in
  let node_modules := joinpath base_path "node_modules" in
  (∀ total_files pkg st x,
     exists_ (manifest_full_path base_path node_modules (default "" (x_file x)))
       = false →
     scan_executable rules timeout base_path node_modules total_files pkg st x
     = (inr st,
        [Stderr ("Warning: File not found: "
                   +:+ str (manifest_full_path base_path node_modules
                              (default "" (x_file x))))]))
  ∧ (∀ manifest,
       value (scan_manifest rules json_path timeout manifest)
       = value (scan_manifest rules json_path timeout
                  (drop_missing base_path node_modules manifest))).
Proof.
  intros base_path node_modules. split.
  - intros. by apply scan_executable_missing.
  - intros. apply scan_manifest_drop_missing.
Qed.

(** C10. With include patterns, the files [scan_directory] scans are the
    regular files among the paths the patterns find, each once, in the
    order of their first occurrence; nothing that is not a regular file is
    among them; and a completed scan counts exactly these files. *)
Theorem included_files_scanned_once directory (include_patterns : list string) :
  include_patterns ≠ [] →
  let dir_path := mkPath directory in
  let found := include_patterns ≫= rglob dir_path in
  let files := discover_files dir_path (Some include_patterns) in
  NoDup files
  ∧ files = filter (λ f, is_file f = true) (first_occurrences found)
  ∧ (∀ f, f ∈ files ↔ is_file f = true ∧ f ∈ found)
  ∧ (∀ rules timeout report t,
       scan_directory rules directory timeout (Some include_patterns) = (inr report, t) →
       totalScanned report = Z.of_nat (length files)).
Proof.
  intros Hne dir_path found files.
  assert (files = filter (λ f, is_file f = true) (first_occurrences found)) as Hfiles.
  { unfold files, discover_files. destruct include_patterns; [done|].
    cbn [include_patterns_given from_option id].
    by rewrite dict_fromkeys_first_occurrences. }
  split; [|split; [done|split]].
  - rewrite Hfiles. apply NoDup_filter, NoDup_first_occurrences.
  - intros f. by rewrite Hfiles, list_elem_of_filter, elem_of_first_occurrences.
  - intros ? ? ? ? Hrun. by apply scan_directory_scanned in Hrun.
Qed.

(** C4. In the mapping that [load_rules] builds, a namespace holds the path
    of the last assignment made to it, over all rule sources in the order
    given; [main] puts the bundled rules directory, when it is used, in
    front of the user's rule paths; so a user's rule file decides the
    path of its stem, whatever the bundled directory holds, unless a
    later user source assigns the same stem again. *)
Theorem user_rules_shadow_bundled :
  (∀ before src after e1 k v e2 rule_files t,
     rule_source_entries src = e1 ++ (k, v) :: e2 →
     k ∉ e2.*1 →
     (∀ q, q ∈ after → k ∉ (rule_source_entries q).*1) →
     collect_rule_files (before ++ src :: after) = (inr rule_files, t) →
     dict_to_map rule_files !! k = Some v)
  ∧ (∀ a,
       args_no_bundled_rules a = false →
       exists_ bundled_rules = true →
       main_rules_paths a = str bundled_rules :: args_rules a)
  ∧ (∀ a before u after rule_files t,
       args_rules a = before ++ u :: after →
       exists_ (mkPath u) = true →
       is_file (mkPath u) = true →
       suffix (mkPath u) ∈ [".yar"; ".yara"] →
       (∀ q, q ∈ after → stem (mkPath u) ∉ (rule_source_entries q).*1) →
       collect_rule_files (main_rules_paths a) = (inr rule_files, t) →
       dict_to_map rule_files !! stem (mkPath u) = Some (str (mkPath u))).
Proof.
  split; [|split].
  - intros. by eapply collect_rule_files_last.
  - apply main_rules_paths_bundled.
  - intros a before u after rule_files t Hrules Hex Hfile Hsuffix Hafter Hrun.
    destruct (main_rules_paths_suffix a) as [front Hpaths].
    rewrite Hpaths, Hrules, app_assoc in Hrun.
    eapply (collect_rule_files_last _ u after [] _ _ []); [|by apply not_elem_of_nil|done..].
    unfold rule_source_entries. rewrite Hex, Hfile. cbn [negb andb].
    by rewrite bool_decide_eq_true_2.
Qed.

End Claims.

(** * Further properties of the scanner *)

Section ScanLoops.
Context `{World}.


Lemma scan_target_raises rules timeout dir n st f e t :
  scan_file rules (str f) timeout = (inl e, t) →
  value (scan_target rules timeout dir n st f) = inl e.
Proof.
  intros Hscan. destruct st as [r i]. unfold scan_target.
  rewrite bind_value, print_progress_value. cbn beta iota.
  by rewrite bind_value, Hscan.
Qed.

(** X1. An interrupt or exit raised by the engine while a discovered file
    is matched is not handled: [scan_file] raises it without printing, and
    the directory scan returns no report. *)
Theorem interrupt_aborts_directory_scan
    rules directory timeout include_patterns f e :
  f ∈ discover_files (mkPath directory) include_patterns →
  rules_match rules (str f) timeout = inl e →
  is_Exception e = false →
  scan_file rules (str f) timeout = (inl e, [])
  ∧ ∀ report t,
      scan_directory rules directory timeout include_patterns ≠ (inr report, t).
Proof.
  intros Hf Hraise He.
  pose proof (scan_file_propagates _ _ _ _ Hraise He) as Hscan.
  split; [done|]. intros report t Hrun.
  unfold scan_directory in Hrun. py_invert. revert_loop. intros Hloop.
  destruct (for_each_iterations _ _ _ _ _ f Hloop Hf) as (s1 & s2 & t1 & Hstep).
  pose proof (scan_target_raises rules timeout (mkPath directory)
                (Z.of_nat (length (discover_files (mkPath directory) include_patterns)))
                s1 f e [] Hscan) as Hv.
  by rewrite Hstep in Hv.
Qed.

(** X2. A match record keeps the rule name, namespace, tags and metadata
    of its engine match; it has [min(n, 10)] strings for a match with [n]
    matched strings, and all of them, in order, when [n ≤ 10]. *)
Theorem scan_file_keeps_match_fields rules file_path timeout engine_results :
  rules_match rules file_path timeout = inr engine_results →
  ∃ matches,
    scan_file rules file_path timeout = (inr matches, [])
    ∧ Forall2 match_fields_kept engine_results matches.
Proof.
  intros Hm. exists (match_data_of <$> engine_results).
  split; [by apply scan_file_returns|].
  apply Forall2_fmap_r, Forall_Forall2_diag, Forall_forall.
  intros m _. repeat split.
  - simpl. rewrite length_fmap, length_take. lia.
  - intros Hlen. simpl. by rewrite take_ge.
Qed.

Lemma totals_consistent_empty : totals_consistent empty_report.
Proof. by repeat split. Qed.

Lemma totals_consistent_count_scanned r :
  totals_consistent r → totals_consistent (count_scanned r).
Proof. done. Qed.

Lemma totals_consistent_count_matches r m ms res :
  r_matches res = m :: ms →
  totals_consistent r →
  totals_consistent (count_matches r (m :: ms) res).
Proof.
  intros Hres (Hfiles & Htotal & Hall). repeat split; simpl.
  - rewrite length_app, Hfiles. simpl. lia.
  - rewrite sum_list_with_app, Htotal. simpl. rewrite Hres. simpl. lia.
  - apply Forall_app. split; [done|]. apply Forall_singleton. by rewrite Hres.
Qed.

Lemma scan_target_totals rules timeout dir n st f st' t :
  totals_consistent st.1 →
  scan_target rules timeout dir n st f = (inr st', t) →
  totals_consistent st'.1.
Proof.
  destruct st as [r i]. unfold scan_target. cbn [fst]. intros Hr Hrun.
  py_invert. case_matches; py_invert; cbn [fst]; [done|].
  by apply totals_consistent_count_matches.
Qed.

Lemma scan_executable_totals rules timeout base nm total pkg st x st' t :
  totals_consistent st.1 →
  scan_executable rules timeout base nm total pkg st x = (inr st', t) →
  totals_consistent st'.1.
Proof.
  destruct st as [r n]. unfold scan_executable. cbn [fst]. intros Hr.
  destruct (negb _); [by intros [= <- _]|]. intros Hrun.
  py_invert. case_matches; py_invert; cbn [fst]; [done|].
  by apply totals_consistent_count_matches.
Qed.

(** X3. In the report of a completed scan, [filesWithMatches] is the
    number of result records, [totalMatches] is the number of matches in
    them, and every record has at least one match. *)
Theorem completed_scan_totals :
  (∀ rules json_path timeout report t,
     scan_files_from_json rules json_path timeout = (inr report, t) →
     totals_consistent report)
  ∧ (∀ rules directory timeout include_patterns report t,
       scan_directory rules directory timeout include_patterns = (inr report, t) →
       totals_consistent report).
Proof.
  split.
  - intros ? ? ? ? ?. unfold scan_files_from_json, scan_manifest. intros Hrun.
    py_invert. revert_loop.
    apply for_each_invariant with (P := λ st, totals_consistent st.1);
      [|apply totals_consistent_empty].
    intros st pkg st' t' Hst _. unfold scan_package.
    apply for_each_invariant with (P := λ st, totals_consistent st.1); [|done].
    intros ? ? ? ? ? _. by apply scan_executable_totals.
  - intros ? ? ? ? ? ?. unfold scan_directory. intros Hrun.
    py_invert. revert_loop.
    apply for_each_invariant with (P := λ st, totals_consistent st.1);
      [|apply totals_consistent_empty].
    intros ? ? ? ? ? _. by apply scan_target_totals.
Qed.

Lemma scan_executable_scanned rules timeout base nm total pkg st x st' t :
  scan_executable rules timeout base nm total pkg st x = (inr st', t) →
  totalScanned st'.1
  = totalScanned st.1 + (if entry_present base nm x then 1 else 0).
Proof.
  destruct st as [r n]. unfold scan_executable, entry_present. cbn [fst].
  destruct (exists_ _); cbn [negb].
  - intros Hrun. py_invert. by case_matches; py_invert.
  - intros [= <- _]. simpl. lia.
Qed.

Lemma foldl_count_present {A} (P : A → bool) (xs : list A) (n : Z) :
  foldl (λ n x, n + (if P x then 1 else 0)) n xs
  = n + Z.of_nat (length (filter (λ x, P x = true) xs)).
Proof.
  revert n. induction xs as [|x xs IH]; intros n; simpl; [lia|].
  rewrite IH, filter_cons. destruct (P x).
  - rewrite decide_True by done. simpl. lia.
  - rewrite decide_False by done. lia.
Qed.

Lemma sum_list_with_le {A} (f g : A → nat) (xs : list A) :
  (∀ x, (f x ≤ g x)%nat) → (sum_list_with f xs ≤ sum_list_with g xs)%nat.
Proof.
  intros Hfg. induction xs as [|x xs IH]; cbn [sum_list_with]; [done|].
  specialize (Hfg x). lia.
Qed.

Lemma foldl_sum {A} (g : A → nat) (xs : list A) (n : Z) :
  foldl (λ n x, n + Z.of_nat (g x)) n xs = n + Z.of_nat (sum_list_with g xs).
Proof.
  revert n. induction xs as [|x xs IH]; intros n; simpl; [lia|].
  rewrite IH. lia.
Qed.

(** X4. A completed manifest scan counts as scanned exactly the manifest
    entries whose file exists, so never more than the total it announces. *)
Theorem manifest_scan_counts_present_entries
    rules json_path timeout manifest report t :
  json_load json_path = inr manifest →
  scan_files_from_json rules json_path timeout = (inr report, t) →
  let base_path := parent (mkPath json_path) in
  let node_modules := joinpath base_path "node_modules" in
  let packages := default [] (sr_packages manifest) in
  totalScanned report
  = Z.of_nat (sum_list_with
                (λ pkg, length (filter (λ x, entry_present base_path node_modules x = true)
                                  (package_files pkg)))
                packages)
  ∧ totalScanned report
    ≤ Z.of_nat (sum_list_with (λ pkg, length (package_files pkg)) packages).
Proof.
  intros Hload Hrun base_path node_modules packages.
  assert (totalScanned report
          = Z.of_nat (sum_list_with
                (λ pkg, length (filter (λ x, entry_present base_path node_modules x = true)
                                  (package_files pkg)))
                packages)) as Hcount.
  { unfold scan_files_from_json, scan_manifest in Hrun. rewrite Hload in Hrun.
    py_invert. match goal with Hc : call _ = _ |- _ => injection Hc as <- <- end.
    revert_loop. intros Hloop.
    eapply (for_each_foldl (λ st, totalScanned st.1)
              (λ n pkg, n + Z.of_nat
                 (length (filter (λ x, entry_present base_path node_modules x = true)
                            (package_files pkg))))) in Hloop.
    - rewrite Hloop, foldl_sum. exact (Z.add_0_l _).
    - intros st pkg st' t' _ Hpkg. unfold scan_package in Hpkg.
      eapply (for_each_foldl (λ st, totalScanned st.1)
                (λ n x, n + (if entry_present base_path node_modules x then 1 else 0)))
        in Hpkg.
      + by rewrite Hpkg, foldl_count_present.
      + intros ? ? ? ? _. apply scan_executable_scanned. }
  split; [done|]. rewrite Hcount. apply inj_le, sum_list_with_le.
  intros pkg. apply length_filter.
Qed.






End ScanLoops.

(** ** The dict of rule files *)

Section DictKeys.
Context {V : Type}.
Implicit Types d : list (string * V).

(** An assignment keeps the keys and their order, and puts a new key last. *)
Lemma dict_set_keys k v d :
  (dict_set k v d).*1 = if decide (k ∈ d.*1) then d.*1 else d.*1 ++ [k].
Proof.
  induction d as [|[k' v'] d IH]; [done|].
  cbn [dict_set]. destruct (decide (k = k')) as [->|Hne].
  - rewrite !fmap_cons. cbn [fst]. by rewrite decide_True by left.
  - rewrite !fmap_cons, IH. cbn [fst]. destruct (decide (k ∈ d.*1)) as [Hin|Hout].
    + by rewrite decide_True by by right.
    + rewrite decide_False; [done|]. rewrite elem_of_cons. tauto.
Qed.

Lemma dict_set_all_keys d (entries : list (string * V)) :
  (foldl (λ d e, dict_set e.1 e.2 d) d entries).*1
  = foldl (λ ks k, if decide (k ∈ ks) then ks else ks ++ [k]) d.*1 entries.*1.
Proof.
  revert d. induction entries as [|e entries IH]; intros d; simpl; [done|].
  by rewrite IH, dict_set_keys.
Qed.

Lemma elem_of_dict_set k v d e :
  e ∈ dict_set k v d → e = (k, v) ∨ e ∈ d.
Proof.
  induction d as [|[k' v'] d IH]; simpl.
  - rewrite list_elem_of_singleton. tauto.
  - case_decide; rewrite !elem_of_cons; [tauto|].
    intros [->|Hin]; [tauto|]. destruct (IH Hin); tauto.
Qed.

Lemma elem_of_dict_set_all d (entries : list (string * V)) e :
  e ∈ foldl (λ d e, dict_set e.1 e.2 d) d entries → e ∈ d ∨ e ∈ entries.
Proof.
  revert d. induction entries as [|[k v] entries IH]; intros d; simpl; [tauto|].
  intros [Hin|Hin]%IH; [|right; by right].
  apply elem_of_dict_set in Hin as [->|Hin]; [right; by left|by left].
Qed.

End DictKeys.

Section LoadRules.
Context `{World}.

Lemma collect_rule_files_value rules_paths :
  value (collect_rule_files rules_paths)
  = inr (foldl (λ d e, dict_set e.1 e.2 d) []
           (rules_paths ≫= rule_source_entries)).
Proof. apply for_each_add_rules_path. Qed.

Lemma collect_rule_files_keys rules_paths rule_files t :
  collect_rule_files rules_paths = (inr rule_files, t) →
  rule_files.*1 = first_occurrences (rules_paths ≫= rule_source_entries).*1.
Proof.
  intros Hrun. pose proof (collect_rule_files_value rules_paths) as Hv.
  rewrite Hrun in Hv. injection Hv as ->.
  rewrite dict_set_all_keys. apply (dict_fromkeys_first_occurrences (A := string)).
Qed.

(** X7. The namespaces of the rule files that [load_rules] lists and
    compiles are the stems the rule sources yield, each once, in the
    order of their first occurrence; and each is paired with a path that
    some source assigned to it. *)
Theorem rule_file_namespaces rules_paths rule_files t :
  collect_rule_files rules_paths = (inr rule_files, t) →
  let entries := rules_paths ≫= rule_source_entries in
  rule_files.*1 = first_occurrences entries.*1
  ∧ NoDup rule_files.*1
  ∧ (∀ k, k ∈ rule_files.*1 ↔ k ∈ entries.*1)
  ∧ (∀ k v, (k, v) ∈ rule_files → (k, v) ∈ entries).
Proof.
  intros Hrun entries.
  pose proof (collect_rule_files_keys _ _ _ Hrun) as Hkeys. fold entries in Hkeys.
  split; [done|]. rewrite Hkeys. split; [apply NoDup_first_occurrences|]. split.
  - intros k. apply elem_of_first_occurrences.
  - intros k v Hin. pose proof (collect_rule_files_value rules_paths) as Hv.
    rewrite Hrun in Hv. injection Hv as Hrf. rewrite Hrf in Hin.
    apply elem_of_dict_set_all in Hin as [Hin|Hin]; [|done].
    by apply elem_of_nil in Hin.
Qed.

Lemma for_each_unit_value {A} (body : unit → A → Py unit) xs :
  (∀ x, value (body () x) = inr ()) → value (for_each body xs ()) = inr ().
Proof.
  intros Hbody. induction xs as [|x xs IH]; [done|].
  cbn [for_each]. by rewrite bind_value, Hbody.
Qed.

Lemma load_rules_value rules_paths rule_files t :
  collect_rule_files rules_paths = (inr rule_files, t) →
  value (load_rules rules_paths) = load_rules_outcome rule_files.
Proof.
  intros Hrun. unfold load_rules, load_rules_outcome.
  rewrite bind_value, Hrun. cbn [value fst].
  destruct rule_files as [|e0 rule_files]; [done|].
  rewrite !bind_value. cbn [value print_err fst].
  rewrite for_each_unit_value by by intros [??].
  unfold try_except, call.
  destruct (yara_compile (e0 :: rule_files)) as [e|rules]; [|done].
  by destruct e.
Qed.

(** X8. With at least one rule file collected, [load_rules] returns the
    compiled rules when [yara.compile] returns them, ends the process with
    status 1 when it raises [yara.SyntaxError], and lets any other
    exception of [yara.compile] through unhandled. *)
Theorem load_rules_compile_outcome rules_paths rule_files t :
  collect_rule_files rules_paths = (inr rule_files, t) →
  rule_files ≠ [] →
  value (load_rules rules_paths)
  = match yara_compile rule_files with
    | inr rules => inr (Some rules)
    | inl e => if is_SyntaxError e then inl (SystemExit 1) else inl e
    end.
Proof.
  intros Hrun Hne. rewrite (load_rules_value _ _ _ Hrun).
  by destruct rule_files.
Qed.

Lemma first_occurrences_nil {A} `{EqDecision A} (l : list A) :
  first_occurrences l = [] ↔ l = [].
Proof. by destruct l. Qed.

(** X9. [load_rules] returns [None] exactly when no rule source yields a
    rule file: no path given, or every path missing, not a [.yar]/[.yara]
    file, or a directory without such files. *)
Theorem load_rules_none_iff_no_rule_files rules_paths :
  value (load_rules rules_paths) = inr None
  ↔ rules_paths ≫= rule_source_entries = [].
Proof.
  destruct (collect_rule_files_returns rules_paths) as (rule_files & t & Hrun).
  rewrite (load_rules_value _ _ _ Hrun).
  pose proof (collect_rule_files_keys _ _ _ Hrun) as Hkeys.
  assert (rule_files = [] ↔ rules_paths ≫= rule_source_entries = []) as <-.
  { split.
    - intros ->. symmetry in Hkeys.
      apply (proj1 (first_occurrences_nil _)) in Hkeys.
      by apply fmap_nil_inv in Hkeys.
    - intros Hnone. rewrite Hnone in Hkeys. by apply fmap_nil_inv in Hkeys. }
  unfold load_rules_outcome. destruct rule_files as [|e0 rule_files]; [done|].
  split; [|done].
  destruct (yara_compile _) as [e|rules]; [by destruct (is_SyntaxError e)|done].
Qed.

(** X10. A rules path that does not exist, or that is neither a
    [.yar]/[.yara] file nor a directory, changes nothing in what
    [load_rules] returns or raises. *)
Theorem unusable_rules_path_ignored before path after :
  exists_ (mkPath path) = false
  ∨ ((is_file (mkPath path) = false ∨ suffix (mkPath path) ∉ [".yar"; ".yara"])
     ∧ is_dir (mkPath path) = false) →
  value (load_rules (before ++ path :: after))
  = value (load_rules (before ++ after)).
Proof.
  intros Hpath.
  assert (rule_source_entries path = []) as Hnone.
  { unfold rule_source_entries. destruct Hpath as [->|[Hfile ->]]; [done|].
    destruct (negb _); [done|].
    destruct Hfile as [->|Hsuffix]; [done|].
    rewrite bool_decide_eq_false_2 by done. by rewrite andb_false_r. }
  destruct (collect_rule_files_returns (before ++ path :: after)) as (rf & t & Hrun).
  destruct (collect_rule_files_returns (before ++ after)) as (rf' & t' & Hrun').
  rewrite (load_rules_value _ _ _ Hrun), (load_rules_value _ _ _ Hrun').
  pose proof (collect_rule_files_value (before ++ path :: after)) as Hv.
  pose proof (collect_rule_files_value (before ++ after)) as Hv'.
  rewrite Hrun in Hv. rewrite Hrun' in Hv'.
  rewrite bind_app, bind_cons, Hnone in Hv. rewrite bind_app in Hv'.
  cbn [value fst app] in Hv, Hv'. congruence.
Qed.

(** X11. Within one rules directory the [*.yar] files are assigned before
    the [*.yara] files, so of two files with the same stem the [.yara]
    file is the one compiled, unless a later source assigns the stem
    again. *)
Theorem yara_file_overrides_yar_file
    before directory after earlier f later rule_files t :
  exists_ (mkPath directory) = true →
  is_file (mkPath directory) = false →
  is_dir (mkPath directory) = true →
  glob (mkPath directory) "*.yara" = earlier ++ f :: later →
  stem f ∉ stem <$> later →
  (∀ q, q ∈ after → stem f ∉ (rule_source_entries q).*1) →
  collect_rule_files (before ++ directory :: after) = (inr rule_files, t) →
  dict_to_map rule_files !! stem f = Some (str f).
Proof.
  intros Hex Hfile Hdir Hglob Hlater Hafter Hrun.
  eapply (collect_rule_files_last before directory after
            (((λ f, (stem f, str f)) <$> glob (mkPath directory) "*.yar")
               ++ ((λ f, (stem f, str f)) <$> earlier))
            (stem f) (str f) ((λ f, (stem f, str f)) <$> later)); [| |done..].
  - unfold rule_source_entries. rewrite Hex, Hfile, Hdir, Hglob. cbn [negb andb].
    by rewrite fmap_app, fmap_cons, <- app_assoc.
  - by rewrite <- list_fmap_compose.
Qed.

End LoadRules.

(** ** Annotations and the exit status *)

Lemma annotate_match_counts file_path package n m :
  string_severity m →
  ∃ line,
    annotate_match file_path package n m
    = (inr (if decide (high_severity m) then n + 1 else n), [Stdout line]).
Proof.
  intros [s Hs]. unfold annotate_match.
  destruct (decide (high_severity m)) as [Hhigh|Hlow];
    unfold high_severity in *; rewrite Hs in *;
    repeat case_decide; try (exfalso; tauto); by eexists.
Qed.

Lemma annotate_matches_counts file_path package ms n :
  Forall string_severity ms →
  ∃ lines,
    for_each (annotate_match file_path package) ms n
    = (inr (n + Z.of_nat (length (filter high_severity ms))), Stdout <$> lines)
    ∧ length lines = length ms.
Proof.
  intros Hms. revert n. induction Hms as [|m ms Hm _ IH]; intros n.
  - exists []. split; [|done]. simpl. by rewrite Z.add_0_r.
  - destruct (annotate_match_counts file_path package n m Hm) as [line Hline].
    destruct (IH (if decide (high_severity m) then n + 1 else n))
      as (lines & Hrest & Hlen).
    exists (line :: lines). split; [|simpl; by rewrite Hlen].
    cbn [for_each]. rewrite (bind_ok _ _ _ _ Hline), Hrest. cbn [fst snd].
    rewrite filter_cons. f_equal. f_equal.
    destruct (decide (high_severity m)); simpl; lia.
Qed.

Lemma annotate_results_counts rs n :
  Forall string_severity (rs ≫= r_matches) →
  ∃ lines,
    for_each annotate_result rs n
    = (inr (n + Z.of_nat (length (filter high_severity (rs ≫= r_matches)))),
       Stdout <$> lines)
    ∧ length lines = length (rs ≫= r_matches).
Proof.
  revert n. induction rs as [|r rs IH]; intros n Hrs.
  - exists []. split; [|done]. simpl. by rewrite Z.add_0_r.
  - rewrite bind_cons in Hrs. apply Forall_app in Hrs as [Hr Hrs].
    destruct (annotate_matches_counts (r_file r) (default "" (r_package r))
                (r_matches r) n Hr) as (lines1 & Hrun1 & Hlen1).
    destruct (IH (n + Z.of_nat (length (filter high_severity (r_matches r)))) Hrs)
      as (lines2 & Hrun2 & Hlen2).
    exists (lines1 ++ lines2). split.
    + cbn [for_each].
      rewrite (bind_ok (annotate_result n r) _ _ _ Hrun1). cbn beta.
      rewrite Hrun2. cbn [fst snd].
      rewrite bind_cons, filter_app, length_app, fmap_app. f_equal. f_equal. lia.
    + by rewrite bind_cons, !length_app, Hlen1, Hlen2.
Qed.

Lemma annotations_count_high_severity_aux (yara_results : report) :
  Forall string_severity (all_matches yara_results) →
  ∃ n, value (emit_github_annotations yara_results) = inr n.
Proof.
  intros Hall. unfold emit_github_annotations, all_matches in *.
  destruct (annotate_results_counts (results yara_results) 0 Hall)
    as (lines & Hrun & _).
  rewrite Hrun. by eexists.
Qed.

(** X12. When every match's severity is a string or absent,
    [emit_github_annotations] prints one annotation line per match on
    standard output and returns the number of matches whose severity is
    ['critical'] or ['high']. *)
Theorem annotations_count_high_severity (yara_results : report) :
  Forall string_severity (all_matches yara_results) →
  ∃ lines,
    emit_github_annotations yara_results
    = (inr (Z.of_nat (length (filter high_severity (all_matches yara_results)))),
       Stdout <$> lines)
    ∧ length lines = length (all_matches yara_results).
Proof.
  intros Hall. unfold emit_github_annotations, all_matches in *.
  destruct (annotate_results_counts (results yara_results) 0 Hall)
    as (lines & Hrun & Hlen).
  exists lines. by rewrite Hrun, Z.add_0_l.
Qed.

Lemma length_all_matches (r : report) :
  length (all_matches r) = sum_list_with (λ res, length (r_matches res)) (results r).
Proof.
  unfold all_matches. induction (results r) as [|res rs IH]; [done|].
  by rewrite bind_cons, length_app, IH.
Qed.

(** X13. For a report whose counters agree with its results, as every
    completed scan returns, the high-severity count that
    [emit_github_annotations] returns lies between 0 and [totalMatches]. *)
Theorem high_severity_count_bounded (yara_results : report) :
  totals_consistent yara_results →
  Forall string_severity (all_matches yara_results) →
  ∃ high_count t,
    emit_github_annotations yara_results = (inr high_count, t)
    ∧ 0 ≤ high_count ≤ totalMatches yara_results.
Proof.
  intros (_ & Htotal & _) Hall.
  destruct (annotate_results_counts (results yara_results) 0 Hall)
    as (lines & Hrun & _).
  eexists _, _. split; [exact Hrun|].
  rewrite Htotal, <- length_all_matches. unfold all_matches.
  pose proof (length_filter high_severity (results yara_results ≫= r_matches)).
  lia.
Qed.

Section MainRuns.
Context `{World}.


(** X15. With a scan source but without [--rules], when the bundled
    rules are switched off or their directory is missing, [main] ends
    with status 1 before anything is loaded or scanned. *)
Theorem main_requires_rules_paths a :
  given (args_input a) || given (args_dir a) = true →
  args_rules a = [] →
  args_no_bundled_rules a = true ∨ exists_ bundled_rules = false →
  main a = (inl (SystemExit 1), [Stderr "Error: No YARA rules specified"])
  ∧ exit_status (main a) = 1.
Proof.
  intros Hsrc Hrules Hbundled.
  assert (main_rules_paths a = []) as Hpaths.
  { unfold main_rules_paths, bundled_rules in *. rewrite Hrules.
    destruct Hbundled as [->|Hmissing]; [done|].
    destruct (negb _); [|done]. by rewrite Hmissing. }
  assert (main a = (inl (SystemExit 1), [Stderr "Error: No YARA rules specified"]))
    as Hmain.
  { unfold main.
    assert (negb (given (args_input a)) && negb (given (args_dir a)) = false) as ->
      by (destruct (given (args_input a)), (given (args_dir a)); done).
    by rewrite Hpaths. }
  split; [done|]. by rewrite Hmain.
Qed.


(** X17. With [--input], the values of [--dir] and [--include] make no
    difference to what [main] does. *)
Theorem main_input_takes_precedence a dir include :
  given (args_input a) = true →
  main (with_directory a dir include) = main a.
Proof.
  intros Hinput. unfold main, run_scan, main_rules_paths, with_directory.
  cbn [args_input args_dir args_include args_rules args_output args_timeout
       args_github_annotations args_bundled_rules args_no_bundled_rules].
  by rewrite Hinput.
Qed.

Lemma write_output_value a output_json :
  value (write_output a output_json)
  = if given (args_output a) then
      match write_file (default "" (args_output a)) output_json with
      | Some e => inl e
      | None => inr ()
      end
    else inr ().
Proof.
  unfold write_output. destruct (given _); [|done]. by destruct (write_file _ _).
Qed.

(** What [main] ends with once the rules are loaded and the scan has
    returned, when the annotations, if asked for, can be printed. *)
Lemma main_value_after_scan a rules report t1 t2 :
  given (args_input a) || given (args_dir a) = true →
  main_rules_paths a ≠ [] →
  load_rules (main_rules_paths a) = (inr (Some rules), t1) →
  run_scan a rules = (inr report, t2) →
  (args_github_annotations a = true → Forall string_severity (all_matches report)) →
  value (main a)
  = match value (write_output a (json_dumps report)) with
    | inl e => inl e
    | inr _ => inl (SystemExit 0)
    end.
Proof.
  intros Hsrc Hpaths Hload Hscan Hann. unfold main.
  assert (negb (given (args_input a)) && negb (given (args_dir a)) = false) as ->
    by (destruct (given (args_input a)), (given (args_dir a)); done).
  rewrite bool_decide_eq_false_2 by done. unfold when.
  repeat (rewrite bind_value; cbn [value mret Py_ret fst]).
  rewrite Hload. cbn [value fst].
  repeat (rewrite bind_value; cbn [value mret Py_ret print_err fst]).
  rewrite Hscan. cbn [value fst].
  repeat (rewrite bind_value; cbn [value mret Py_ret print_err fst]).
  assert (value (if args_github_annotations a
                 then high_count ← emit_github_annotations report;
                      print_err (nl +:+ "yara-matches="
                                   +:+ pretty (filesWithMatches report));;
                      print_err ("yara-high-severity=" +:+ pretty high_count)
                 else mret ()) = inr ()) as ->.
  { destruct (args_github_annotations a); [|done].
    destruct (annotations_count_high_severity_aux report (Hann eq_refl)) as [n Hn].
    by rewrite bind_value, Hn, bind_value. }
  destruct (value (write_output _ _)); [done|]. by case_bool_decide.
Qed.

(** X18. Once the rules are loaded and the scan has returned, [main] ends
    with status 0 whatever was matched, provided the output can be
    written and, with [--github-annotations], every match's severity is a
    string or absent. *)
Theorem main_exits_zero_after_scan a rules report t1 t2 :
  given (args_input a) || given (args_dir a) = true →
  main_rules_paths a ≠ [] →
  load_rules (main_rules_paths a) = (inr (Some rules), t1) →
  run_scan a rules = (inr report, t2) →
  (args_github_annotations a = true → Forall string_severity (all_matches report)) →
  (given (args_output a) = true →
   write_file (default "" (args_output a)) (json_dumps report) = None) →
  value (main a) = inl (SystemExit 0) ∧ exit_status (main a) = 0.
Proof.
  intros Hsrc Hpaths Hload Hscan Hann Hout.
  pose proof (main_value_after_scan _ _ _ _ _ Hsrc Hpaths Hload Hscan Hann) as Hv.
  rewrite write_output_value in Hv.
  destruct (given (args_output a)); [rewrite Hout in Hv by done|];
    unfold exit_status; by rewrite Hv.
Qed.

(** X19. When the file named by [--output] cannot be opened for writing,
    the exception reaches the top level after the scan: [main] ends with
    it instead of status 0. *)
Theorem main_fails_when_output_unwritable a rules report t1 t2 e :
  given (args_input a) || given (args_dir a) = true →
  main_rules_paths a ≠ [] →
  load_rules (main_rules_paths a) = (inr (Some rules), t1) →
  run_scan a rules = (inr report, t2) →
  (args_github_annotations a = true → Forall string_severity (all_matches report)) →
  given (args_output a) = true →
  write_file (default "" (args_output a)) (json_dumps report) = Some e →
  value (main a) = inl e.
Proof.
  intros Hsrc Hpaths Hload Hscan Hann Hgiven Hwrite.
  rewrite (main_value_after_scan _ _ _ _ _ Hsrc Hpaths Hload Hscan Hann).
  by rewrite write_output_value, Hgiven, Hwrite.
Qed.

Lemma bind_trace {A B} (m : Py A) (f : A → Py B) :
  trace (m ≫= f)
  = trace m ++ match value m with inl _ => [] | inr a => trace (f a) end.
Proof.
  unfold mbind, Py_bind, py_bind, value, trace.
  destruct m as [[e|a] t]; simpl; [by rewrite app_nil_r|]. by destruct (f a).
Qed.

(** The events of the [# Output] step when it succeeds. *)
Lemma write_output_trace a output_json :
  (given (args_output a) = true →
   write_file (default "" (args_output a)) output_json = None) →
  trace (write_output a output_json)
  = if given (args_output a) then
      [FileWrite (default "" (args_output a)) output_json;
       Stderr (nl +:+ "Results written to: " +:+ default "" (args_output a))]
    else [Stdout output_json].
Proof.
  intros Hout. unfold write_output. destruct (given _); [|done].
  by rewrite Hout.
Qed.

(** X21. On a run that ends with status 0, the JSON of the report is the
    last thing [main] emits: on standard output without [--output], and
    otherwise into the named file, followed only by the line on standard
    error that names the file. *)
Theorem main_emits_results_last a rules report t1 t2 :
  given (args_input a) || given (args_dir a) = true →
  main_rules_paths a ≠ [] →
  load_rules (main_rules_paths a) = (inr (Some rules), t1) →
  run_scan a rules = (inr report, t2) →
  (args_github_annotations a = true → Forall string_severity (all_matches report)) →
  (given (args_output a) = true →
   write_file (default "" (args_output a)) (json_dumps report) = None) →
  ∃ earlier,
    trace (main a)
    = earlier
      ++ (if given (args_output a) then
            [FileWrite (default "" (args_output a)) (json_dumps report);
             Stderr (nl +:+ "Results written to: " +:+ default "" (args_output a))]
          else [Stdout (json_dumps report)]).
Proof.
  intros Hsrc Hpaths Hload Hscan Hann Hout.
  rewrite <- (write_output_trace a (json_dumps report) Hout).
  assert (value (write_output a (json_dumps report)) = inr ()) as Hwritten.
  { rewrite write_output_value. destruct (given (args_output a)); [|done].
    by rewrite Hout. }
  unfold main.
  assert (negb (given (args_input a)) && negb (given (args_dir a)) = false) as ->
    by (destruct (given (args_input a)), (given (args_dir a)); done).
  rewrite bool_decide_eq_false_2 by done. unfold when.
  repeat (rewrite bind_trace; cbn [value trace mret Py_ret fst snd]).
  rewrite Hload. cbn [value trace fst snd].
  repeat (rewrite bind_trace; cbn [value trace mret Py_ret print_err fst snd]).
  rewrite Hscan. cbn [value trace fst snd].
  repeat (rewrite bind_trace; cbn [value trace mret Py_ret print_err fst snd]).
  assert (value (if args_github_annotations a
                 then high_count ← emit_github_annotations report;
                      print_err (nl +:+ "yara-matches="
                                   +:+ pretty (filesWithMatches report));;
                      print_err ("yara-high-severity=" +:+ pretty high_count)
                 else mret ()) = inr ()) as ->.
  { destruct (args_github_annotations a); [|done].
    destruct (annotations_count_high_severity_aux report (Hann eq_refl)) as [n Hn].
    by rewrite bind_value, Hn, bind_value. }
  rewrite Hwritten.
  assert (∀ b : bool,
            trace (if b then raise (SystemExit 0) else mret ())
            ++ match value (if b then raise (SystemExit 0) else mret ()) with
               | inl _ => []
               | inr _ => trace (raise (A := unit) (SystemExit 0))
               end = []) as -> by by intros [].
  rewrite app_nil_r, !app_assoc. by eexists.
Qed.

End MainRuns.

(** ** dict.fromkeys on lists without duplicates *)

Lemma filter_all' {A} (P : A → Prop) `{∀ x, Decision (P x)} (l : list A) :
  (∀ x, x ∈ l → P x) → filter P l = l.
Proof.
  induction l as [|x l IH]; intros HP; [done|].
  rewrite filter_cons_True by (apply HP; left).
  rewrite IH; [done|]. intros y Hy. apply HP. by right.
Qed.

(** X20. [dict.fromkeys] leaves a list without duplicates as it is, so
    include patterns that find disjoint sets of paths are scanned in the
    order found; and applying it twice is the same as applying it once. *)
Theorem dict_fromkeys_keeps_distinct_keys {A} `{EqDecision A} (keys : list A) :
  (NoDup keys → dict_fromkeys keys = keys)
  ∧ dict_fromkeys (dict_fromkeys keys) = dict_fromkeys keys.
Proof.
  assert (∀ l : list A, NoDup l → first_occurrences l = l) as Hid.
  { intros l Hl. induction Hl as [|x l Hx _ IH]; [done|].
    simpl. rewrite IH. f_equal. apply filter_all'. intros y Hy ->. done. }
  split.
  - intros Hkeys. rewrite dict_fromkeys_first_occurrences. by apply Hid.
  - rewrite !dict_fromkeys_first_occurrences. apply Hid, NoDup_first_occurrences.
Qed.

(** The remaining statements are about runs in the concrete world. *)
#[local] Existing Instance Demo.world.

(** C5. The severity selects the annotation level only while it is a
    string: the rule [Scored] carries the integer severity 3, the directory
    scan reports its match, and [emit_github_annotations] raises
    [AttributeError] on that report instead of printing a notice. *)
Theorem integer_severity_breaks_annotation :
  md_meta (match_data_of Demo.scored) !! "severity" = Some (MInt 3)
  ∧ value (scan_directory [] "proj/node_modules" 60 (Some ["*.min.js"]))
    = inr Demo.scored_report
  ∧ emit_github_annotations Demo.scored_report
    = (inl (AttributeError "'int' object has no attribute 'upper'"), []).
Proof. repeat split; vm_compute; reflexivity. Qed.

(** C9. A run whose scan completed does not always end with status 0:
    with [--github-annotations], the match of the rule with the integer
    severity makes [main] end with status 1 after the scan summary; the
    same run without annotations ends with status 0. *)
Theorem main_status_after_integer_severity :
  (∃ rules t,
     load_rules (main_rules_paths Demo.annotate_args)
     = (inr (Some rules), t)
     ∧ value (run_scan Demo.annotate_args rules)
       = inr Demo.scored_report)
  ∧ Stderr "Files scanned: 1" ∈ trace (main Demo.annotate_args)
  ∧ value (main Demo.annotate_args)
    = inl (AttributeError "'int' object has no attribute 'upper'")
  ∧ exit_status (main Demo.annotate_args) = 1.
Proof.
  split; [|split; [|split]].
  - eexists _, _. split; vm_compute; reflexivity.
  - refine (bool_decide_unpack _ _). vm_compute. exact I.
  - vm_compute. reflexivity.
  - vm_compute. reflexivity.
Qed.

(** * The statements at work in the concrete world *)

(** C1 on the manifest scan and the directory scan of the concrete world. *)
Lemma completed_scan_counters_witness :
  (Demo.manifest_run = (inr (report_of Demo.manifest_run), trace Demo.manifest_run)
   ∧ filesWithMatches (report_of Demo.manifest_run)
       ≤ totalScanned (report_of Demo.manifest_run)
   ∧ totalMatches (report_of Demo.manifest_run)
       >= filesWithMatches (report_of Demo.manifest_run))
  ∧ (Demo.directory_run = (inr (report_of Demo.directory_run), trace Demo.directory_run)
     ∧ filesWithMatches (report_of Demo.directory_run)
         ≤ totalScanned (report_of Demo.directory_run)
     ∧ totalMatches (report_of Demo.directory_run)
         >= filesWithMatches (report_of Demo.directory_run)).
Proof.
  assert (Demo.manifest_run
          = (inr (report_of Demo.manifest_run), trace Demo.manifest_run)) as Hjson
    by (vm_compute; reflexivity).
  assert (Demo.directory_run
          = (inr (report_of Demo.directory_run), trace Demo.directory_run)) as Hdir
    by (vm_compute; reflexivity).
  split.
  - split; [exact Hjson|]. exact (proj1 completed_scan_counters _ _ _ _ _ Hjson).
  - split; [exact Hdir|]. exact (proj2 completed_scan_counters _ _ _ _ _ _ Hdir).
Defined.

(** C2 on the file whose scan times out. *)
Lemma scan_file_swallows_errors_witness :
  rules_match [] "proj/node_modules/evil/bin/slow.node" 60 = inl TimeoutError
  ∧ is_Exception TimeoutError = true
  ∧ ∃ warning,
      scan_file [] "proj/node_modules/evil/bin/slow.node" 60
      = (inr [], [Stderr warning])
      ∧ String.prefix "Warning: " warning = true.
Proof.
  assert (rules_match [] "proj/node_modules/evil/bin/slow.node" 60 = inl TimeoutError)
    as Hraise by (vm_compute; reflexivity).
  split; [exact Hraise|]. split; [reflexivity|].
  exact (proj1 (scan_file_swallows_errors _ _ _ _ Hraise eq_refl)).
Defined.

(** C3 on the file with two matches, one of them with twelve strings. *)
Lemma match_strings_capped_witness :
  rules_match [] "proj/node_modules/evil/bin/run.node" 60
  = inr [Demo.dropper; Demo.packed]
  ∧ length (strings Demo.dropper) = 12%nat
  ∧ ∃ matches,
      scan_file [] "proj/node_modules/evil/bin/run.node" 60 = (inr matches, [])
      ∧ Forall2 strings_capped [Demo.dropper; Demo.packed] matches.
Proof.
  assert (rules_match [] "proj/node_modules/evil/bin/run.node" 60
          = inr [Demo.dropper; Demo.packed]) as Hm by (vm_compute; reflexivity).
  split; [exact Hm|]. split; [reflexivity|].
  exact (match_strings_capped _ _ _ _ Hm).
Defined.

(** C4: the bundled directory holds [malware.yar], the user names
    [custom/malware.yara], and the namespace [malware] goes to the user's
    file. *)
Lemma user_rules_shadow_bundled_witness :
  let a := {| args_input := None; args_dir := Some "proj/node_modules";
              args_include := []; args_rules := ["custom/malware.yara"];
              args_output := None; args_timeout := 60;
              args_github_annotations := false;
              args_bundled_rules := true; args_no_bundled_rules := false |} in
  main_rules_paths a = ["/opt/scanner/rules"; "custom/malware.yara"]
  ∧ rule_source_entries "/opt/scanner/rules"
    = [("malware", "/opt/scanner/rules/malware.yar");
       ("miner", "/opt/scanner/rules/miner.yar")]
  ∧ collect_rule_files (main_rules_paths a)
    = (inr [("malware", "custom/malware.yara");
            ("miner", "/opt/scanner/rules/miner.yar")], [])
  ∧ dict_to_map [("malware", "custom/malware.yara");
                 ("miner", "/opt/scanner/rules/miner.yar")] !! "malware"
    = Some "custom/malware.yara".
Proof.
  intros a.
  assert (collect_rule_files (main_rules_paths a)
          = (inr [("malware", "custom/malware.yara");
                  ("miner", "/opt/scanner/rules/miner.yar")], [])) as Hrun
    by (vm_compute; reflexivity).
  split; [vm_compute; reflexivity|]. split; [vm_compute; reflexivity|].
  split; [exact Hrun|].
  refine (proj2 (proj2 user_rules_shadow_bundled) a [] "custom/malware.yara" []
            _ _ eq_refl _ _ _ _ Hrun).
  - vm_compute; reflexivity.
  - vm_compute; reflexivity.
  - refine (bool_decide_unpack _ _). vm_compute. exact I.
  - intros q Hq. by apply elem_of_nil in Hq.
Defined.

(** C6 on the directory scan of the concrete world. *)
Lemma directory_result_has_relative_path_only_witness :
  Demo.directory_run = (inr (report_of Demo.directory_run), trace Demo.directory_run)
  ∧ length (results (report_of Demo.directory_run)) = 2%nat
  ∧ ∀ res, res ∈ results (report_of Demo.directory_run) →
      ∃ f rel t',
        f ∈ discover_files (mkPath "proj/node_modules") None
        ∧ scan_file [] (str f) 60 = (inr (r_matches res), t')
        ∧ r_matches res ≠ []
        ∧ relative_to f (mkPath "proj/node_modules") = Some rel
        ∧ r_file res = str rel
        ∧ r_package res = None ∧ r_version res = None
        ∧ r_sha256 res = None ∧ r_type res = None.
Proof.
  assert (Demo.directory_run
          = (inr (report_of Demo.directory_run), trace Demo.directory_run)) as Hdir
    by (vm_compute; reflexivity).
  split; [exact Hdir|]. split; [vm_compute; reflexivity|].
  exact (proj1 (directory_result_has_relative_path_only _ _ _ _ _ _ Hdir)).
Defined.

(** C7 on the manifest scan of the concrete world. *)
Lemma manifest_result_carries_package_fields_witness :
  json_load "proj/binary-scan-results.json" = inr Demo.manifest
  ∧ Demo.manifest_run = (inr (report_of Demo.manifest_run), trace Demo.manifest_run)
  ∧ length (results (report_of Demo.manifest_run)) = 1%nat
  ∧ ∀ res, res ∈ results (report_of Demo.manifest_run) →
      ∃ pkg x t',
        pkg ∈ default [] (sr_packages Demo.manifest)
        ∧ x ∈ package_files pkg
        ∧ exists_ (manifest_full_path (mkPath "proj") (mkPath "proj/node_modules")
                     (default "" (x_file x))) = true
        ∧ scan_file [] (str (manifest_full_path (mkPath "proj")
                               (mkPath "proj/node_modules") (default "" (x_file x))))
            60 = (inr (r_matches res), t')
        ∧ r_matches res ≠ []
        ∧ r_file res = default "" (x_file x)
        ∧ r_package res = Some (default "unknown" (p_package pkg))
        ∧ r_version res = Some (default "unknown" (p_version pkg))
        ∧ r_sha256 res = Some (default "" (x_sha256 x))
        ∧ r_type res = Some (default "" (x_type x)).
Proof.
  assert (json_load "proj/binary-scan-results.json" = inr Demo.manifest) as Hload
    by (vm_compute; reflexivity).
  assert (Demo.manifest_run
          = (inr (report_of Demo.manifest_run), trace Demo.manifest_run)) as Hjson
    by (vm_compute; reflexivity).
  split; [exact Hload|]. split; [exact Hjson|]. split; [vm_compute; reflexivity|].
  exact (proj1 (manifest_result_carries_package_fields _ _ _ _ _ _ Hload Hjson)).
Defined.

(** C8 on the manifest entry [evil/bin/gone.node], whose file is missing. *)
Lemma missing_manifest_entry_skipped_witness :
  let x := {| x_file := Some "evil/bin/gone.node"; x_sha256 := Some "cd34";
              x_type := Some "ELF" |} in
  let pkg := {| p_package := Some "evil"; p_version := Some "1.0.2";
                p_files := Some [x] |} in
  exists_ (manifest_full_path (mkPath "proj") (mkPath "proj/node_modules")
             (default "" (x_file x))) = false
  ∧ scan_executable [] 60 (mkPath "proj") (mkPath "proj/node_modules") 4 pkg
      (empty_report, 0) x
    = (inr (empty_report, 0),
       [Stderr "Warning: File not found: proj/node_modules/evil/bin/gone.node"]).
Proof.
  intros x pkg.
  assert (exists_ (manifest_full_path (mkPath "proj") (mkPath "proj/node_modules")
                     (default "" (x_file x))) = false) as Hmissing
    by (vm_compute; reflexivity).
  split; [exact Hmissing|].
  exact (proj1 (missing_manifest_entry_skipped [] "proj/binary-scan-results.json" 60)
           4 pkg (empty_report, 0) x Hmissing).
Defined.

(** C10: [app.min.js] is found by both patterns and [legacy.js] is a
    directory. *)
Lemma included_files_scanned_once_witness :
  ["*.js"; "*.min.js"] ≠ []
  ∧ (["*.js"; "*.min.js"] ≫= rglob (mkPath "proj/node_modules"))
    = [ "proj/node_modules/evil/index.js";
        "proj/node_modules/evil/dist/app.min.js";
        "proj/node_modules/good/index.js";
        "proj/node_modules/evil/legacy.js";
        "proj/node_modules/evil/dist/app.min.js" ]
  ∧ discover_files (mkPath "proj/node_modules") (Some ["*.js"; "*.min.js"])
    = [ "proj/node_modules/evil/index.js";
        "proj/node_modules/evil/dist/app.min.js";
        "proj/node_modules/good/index.js" ]
  ∧ NoDup (discover_files (mkPath "proj/node_modules") (Some ["*.js"; "*.min.js"])).
Proof.
  assert (["*.js"; "*.min.js"] ≠ []) as Hne by discriminate.
  split; [exact Hne|]. split; [vm_compute; reflexivity|].
  split; [vm_compute; reflexivity|].
  exact (proj1 (included_files_scanned_once "proj/node_modules" _ Hne)).
Defined.

(** * The further properties at work in the concrete worlds *)


(** X1 where every engine call is interrupted. *)
Lemma interrupt_aborts_directory_scan_witness :
  scan_file (H := Demo.interrupted) [] "proj/node_modules/evil/index.js" 60
  = (inl KeyboardInterrupt, [])
  ∧ ∀ report t,
      scan_directory (H := Demo.interrupted) [] "proj/node_modules" 60 (Some ["*.js"])
      ≠ (inr report, t).
Proof.
  refine (interrupt_aborts_directory_scan (H := Demo.interrupted)
            [] "proj/node_modules" 60 (Some ["*.js"])
            "proj/node_modules/evil/index.js" KeyboardInterrupt _ eq_refl eq_refl).
  refine (bool_decide_unpack _ _). vm_compute. exact I.
Defined.

(** X2 on the file with two matches, one of them with twelve strings. *)
Lemma scan_file_keeps_match_fields_witness :
  rules_match [] "proj/node_modules/evil/bin/run.node" 60
  = inr [Demo.dropper; Demo.packed]
  ∧ ∃ matches,
      scan_file [] "proj/node_modules/evil/bin/run.node" 60 = (inr matches, [])
      ∧ Forall2 match_fields_kept [Demo.dropper; Demo.packed] matches.
Proof.
  assert (rules_match [] "proj/node_modules/evil/bin/run.node" 60
          = inr [Demo.dropper; Demo.packed]) as Hm by (vm_compute; reflexivity).
  split; [exact Hm|]. exact (scan_file_keeps_match_fields _ _ _ _ Hm).
Defined.

(** X3 on the two scans of the concrete world. *)
Lemma completed_scan_totals_witness :
  totals_consistent (report_of Demo.manifest_run)
  ∧ totals_consistent (report_of Demo.directory_run).
Proof.
  assert (Demo.manifest_run
          = (inr (report_of Demo.manifest_run), trace Demo.manifest_run)) as Hjson
    by (vm_compute; reflexivity).
  assert (Demo.directory_run
          = (inr (report_of Demo.directory_run), trace Demo.directory_run)) as Hdir
    by (vm_compute; reflexivity).
  split.
  - exact (proj1 completed_scan_totals _ _ _ _ _ Hjson).
  - exact (proj2 completed_scan_totals _ _ _ _ _ _ Hdir).
Defined.

(** X4: the manifest lists four files, one of them missing. *)
Lemma manifest_scan_counts_present_entries_witness :
  totalScanned (report_of Demo.manifest_run) = 3
  ∧ totalScanned (report_of Demo.manifest_run) ≤ 4.
Proof.
  assert (json_load "proj/binary-scan-results.json" = inr Demo.manifest) as Hload
    by (vm_compute; reflexivity).
  assert (Demo.manifest_run
          = (inr (report_of Demo.manifest_run), trace Demo.manifest_run)) as Hjson
    by (vm_compute; reflexivity).
  exact (manifest_scan_counts_present_entries (H := Demo.world)
           [] "proj/binary-scan-results.json" 60 _ _ _ Hload Hjson).
Defined.



(** X7 on the bundled directory followed by the user's rule file. *)
Lemma rule_file_namespaces_witness :
  collect_rule_files ["/opt/scanner/rules"; "custom/malware.yara"]
  = (inr Demo.loaded_rules, [])
  ∧ Demo.loaded_rules.*1 = ["malware"; "miner"]
  ∧ NoDup Demo.loaded_rules.*1.
Proof.
  assert (collect_rule_files ["/opt/scanner/rules"; "custom/malware.yara"]
          = (inr Demo.loaded_rules, [])) as Hrun by (vm_compute; reflexivity).
  split; [exact Hrun|]. split; [reflexivity|].
  exact (proj1 (proj2 (rule_file_namespaces _ _ _ Hrun))).
Defined.

(** X8 on the rule file that does not compile. *)
Lemma load_rules_compile_outcome_witness :
  collect_rule_files ["custom/broken.yar"]
  = (inr [("broken", "custom/broken.yar")], [])
  ∧ value (load_rules ["custom/broken.yar"]) = inl (SystemExit 1).
Proof.
  assert (collect_rule_files ["custom/broken.yar"]
          = (inr [("broken", "custom/broken.yar")], [])) as Hrun
    by (vm_compute; reflexivity).
  split; [exact Hrun|].
  exact (load_rules_compile_outcome _ _ _ Hrun ltac:(discriminate)).
Defined.

(** X9 on a rules path that does not exist. *)
Lemma load_rules_none_iff_no_rule_files_witness :
  ["nothere"] ≫= rule_source_entries = []
  ∧ value (load_rules ["nothere"]) = inr None.
Proof.
  assert (["nothere"] ≫= rule_source_entries = []) as Hnone
    by (vm_compute; reflexivity).
  split; [exact Hnone|].
  exact (proj2 (load_rules_none_iff_no_rule_files ["nothere"]) Hnone).
Defined.

(** X10 on a missing path in front of the user's rule file. *)
Lemma unusable_rules_path_ignored_witness :
  exists_ (mkPath "nothere") = false
  ∧ value (load_rules ["nothere"; "custom/malware.yara"])
    = value (load_rules ["custom/malware.yara"]).
Proof.
  assert (exists_ (mkPath "nothere") = false) as Hmissing
    by (vm_compute; reflexivity).
  split; [exact Hmissing|].
  exact (unusable_rules_path_ignored [] "nothere" ["custom/malware.yara"]
           (or_introl Hmissing)).
Defined.

(** X11 in the world whose rules directory holds [a.yar] and [a.yara]. *)
Lemma yara_file_overrides_yar_file_witness :
  glob (World := Demo.twins) "rules" "*.yar" = ["rules/a.yar"; "rules/b.yar"]
  ∧ glob (World := Demo.twins) "rules" "*.yara" = ["rules/a.yara"]
  ∧ collect_rule_files (H := Demo.twins) ["rules"]
    = (inr [("a", "rules/a.yara"); ("b", "rules/b.yar")], [])
  ∧ dict_to_map [("a", "rules/a.yara"); ("b", "rules/b.yar")] !! "a"
    = Some "rules/a.yara".
Proof.
  assert (collect_rule_files (H := Demo.twins) ["rules"]
          = (inr [("a", "rules/a.yara"); ("b", "rules/b.yar")], [])) as Hrun
    by (vm_compute; reflexivity).
  split; [vm_compute; reflexivity|]. split; [vm_compute; reflexivity|].
  split; [exact Hrun|].
  refine (yara_file_overrides_yar_file (H := Demo.twins)
            [] "rules" [] [] "rules/a.yara" [] _ _ _ _ _ _ _ _ Hrun).
  - vm_compute; reflexivity.
  - vm_compute; reflexivity.
  - vm_compute; reflexivity.
  - vm_compute; reflexivity.
  - apply not_elem_of_nil.
  - intros q Hq. by apply elem_of_nil in Hq.
Defined.

Lemma demo_manifest_matches :
  all_matches (report_of Demo.manifest_run)
  = [match_data_of Demo.dropper; match_data_of Demo.packed].
Proof. vm_compute. reflexivity. Qed.

Lemma demo_manifest_severities :
  Forall string_severity (all_matches (report_of Demo.manifest_run)).
Proof.
  rewrite demo_manifest_matches. repeat constructor.
  - by exists "critical".
  - by exists "medium".
Qed.

(** X12 on the report of the manifest scan: one critical match of two. *)
Lemma annotations_count_high_severity_witness :
  ∃ lines,
    emit_github_annotations (report_of Demo.manifest_run)
    = (inr (Z.of_nat (length (filter high_severity
                                (all_matches (report_of Demo.manifest_run))))),
       Stdout <$> lines)
    ∧ length lines = length (all_matches (report_of Demo.manifest_run)).
Proof.
  exact (annotations_count_high_severity _ demo_manifest_severities).
Defined.

(** X13 on the report of the manifest scan. *)
Lemma high_severity_count_bounded_witness :
  ∃ high_count t,
    emit_github_annotations (report_of Demo.manifest_run) = (inr high_count, t)
    ∧ 0 ≤ high_count ≤ totalMatches (report_of Demo.manifest_run).
Proof.
  refine (high_severity_count_bounded _ _ demo_manifest_severities).
  repeat split; vm_compute; [reflexivity..|].
  repeat constructor; discriminate.
Defined.


(** X15 on a directory scan without rules. *)
Lemma main_requires_rules_paths_witness :
  main Demo.no_rules_args
  = (inl (SystemExit 1), [Stderr "Error: No YARA rules specified"])
  ∧ exit_status (main Demo.no_rules_args) = 1.
Proof.
  exact (main_requires_rules_paths Demo.no_rules_args eq_refl eq_refl
           (or_introl eq_refl)).
Defined.


(** X17 on the manifest scan, given a directory and a pattern as well. *)
Lemma main_input_takes_precedence_witness :
  main (with_directory Demo.manifest_args (Some "proj/node_modules") ["*.js"])
  = main Demo.manifest_args.
Proof. exact (main_input_takes_precedence Demo.manifest_args _ _ eq_refl). Defined.

Lemma demo_manifest_args_load :
  load_rules (main_rules_paths Demo.manifest_args)
  = (inr (Some Demo.loaded_rules),
     trace (load_rules (main_rules_paths Demo.manifest_args))).
Proof. vm_compute. reflexivity. Qed.

Lemma demo_manifest_args_scan :
  run_scan Demo.manifest_args Demo.loaded_rules
  = (inr (report_of Demo.manifest_run), trace Demo.manifest_run).
Proof. vm_compute. reflexivity. Qed.

(** X18 on the manifest scan with annotations: a critical match, and
    status 0. *)
Lemma main_exits_zero_after_scan_witness :
  totalMatches (report_of Demo.manifest_run) = 2
  ∧ value (main Demo.manifest_args) = inl (SystemExit 0)
  ∧ exit_status (main Demo.manifest_args) = 0.
Proof.
  split; [vm_compute; reflexivity|].
  refine (main_exits_zero_after_scan Demo.manifest_args _ _ _ _ eq_refl _
            demo_manifest_args_load demo_manifest_args_scan
            (λ _, demo_manifest_severities) _).
  - discriminate.
  - discriminate.
Defined.

(** X19 on the same scan with an output path that cannot be written. *)
Lemma main_fails_when_output_unwritable_witness :
  value (main Demo.unwritable_args)
  = inl (OSError "Permission denied: /proc/yara.json").
Proof.
  refine (main_fails_when_output_unwritable Demo.unwritable_args _ _ _ _ _ eq_refl _
            demo_manifest_args_load demo_manifest_args_scan
            (λ _, demo_manifest_severities) eq_refl _).
  - discriminate.
  - vm_compute; reflexivity.
Defined.

(** X20 on a list of numbers. *)
Lemma dict_fromkeys_keeps_distinct_keys_witness :
  dict_fromkeys [3; 1; 2]%nat = [3; 1; 2]%nat
  ∧ dict_fromkeys [3; 1; 3; 2; 1]%nat = [3; 1; 2]%nat.
Proof.
  split; [|reflexivity].
  apply (proj1 (dict_fromkeys_keeps_distinct_keys [3; 1; 2]%nat)).
  refine (bool_decide_unpack _ _). vm_compute. exact I.
Defined.

(** X21 on the manifest scan with annotations, without [--output]. *)
Lemma main_emits_results_last_witness :
  ∃ earlier,
    trace (main Demo.manifest_args)
    = earlier ++ [Stdout (json_dumps (report_of Demo.manifest_run))].
Proof.
  refine (main_emits_results_last Demo.manifest_args _ _ _ _ eq_refl _
            demo_manifest_args_load demo_manifest_args_scan
            (λ _, demo_manifest_severities) _).
  - discriminate.
  - discriminate.
Defined.
